(** * Pricing and costing engine of gaia-puravida

    A shallow embedding of [src/lib/types.ts] (unit normalisation and the
    cost derivation engine) and of the margin computation of
    [productsWithDerived] in [src/app/page.tsx].

    The TypeScript code computes on the JavaScript [number] type, that is on
    IEEE 754 binary64.  The functions are embedded once, over an interface
    [Number] of the arithmetic they use, and the interface is instantiated
    twice:
    - at Rocq's primitive binary64 [float], which is the arithmetic the
      program runs on (all statements about "the code" are at this instance);
    - at the rationals [Q], the exact arithmetic in which the formulas of the
      specification are read. *)

From Stdlib Require Import ZArith QArith Floats List String Bool Lia Lqa.
From stdpp Require Import gmap strings.

Local Open Scope Z_scope.

(** ** The arithmetic used by the code *)

(** [lit] is an integer literal of the source ([0], [1], [100], [1000]);
    [gtb x y] is the JavaScript comparison [x > y]. *)
Class Number (num : Type) : Type := {
  lit : Z -> num;
  add : num -> num -> num;
  sub : num -> num -> num;
  mul : num -> num -> num;
  div : num -> num -> num;
  gtb : num -> num -> bool
}.

Declare Scope num_scope.
Delimit Scope num_scope with num.
Infix "+" := add : num_scope.
Infix "-" := sub : num_scope.
Infix "*" := mul : num_scope.
Infix "/" := div : num_scope.
Infix ">?" := gtb (at level 70, no associativity) : num_scope.

(** *** binary64

    An integer literal is the binary64 value of that integer; [x > y] is
    [y < x], which is false when an argument is NaN. *)

Definition float_of_Z (z : Z) : float :=
  match z with
  | Z0 => PrimFloat.zero
  | Zpos _ => PrimFloat.of_uint63 (Uint63.of_Z z)
  | Zneg p => PrimFloat.opp (PrimFloat.of_uint63 (Uint63.of_Z (Zpos p)))
  end.

#[export] Instance float_Number : Number float := {
  lit := float_of_Z;
  add := PrimFloat.add;
  sub := PrimFloat.sub;
  mul := PrimFloat.mul;
  div := PrimFloat.div;
  gtb := fun x y => PrimFloat.ltb y x
}.

(** *** exact rationals

    [x > y] is the negation of [x <= y], the order of [Q] being total. *)

#[export] Instance Q_Number : Number Q := {
  lit := inject_Z;
  add := Qplus;
  sub := Qminus;
  mul := Qmult;
  div := Qdiv;
  gtb := fun x y => negb (Qle_bool x y)
}.

(** ** Data model ([src/lib/types.ts], lines 1-52)

    The records keep the fields the functions read, and [name] and
    [salePrice] beside them; the other descriptive fields of the source
    (description, supplier, tags, notes, currency, timestamps) are never read
    by the code below.  The field [id] is [mat_id] in [RawMaterialRecord] and
    [prod_id] in [ProductRecord], [name] is [mat_name] and [prod_name], and
    the fields of a breakdown line carry the prefix [line_], since Rocq
    wants the field names of one file to differ. *)

(** [type Unit = "g" | "kg" | "ml" | "l" | "unit"] *)
Inductive Unit : Set := Ug | Ukg | Uml | Ul | Uunit.

(** [type UnitSystem = "mass" | "volume" | "unit"] *)
Inductive UnitSystem : Set := Mass | Volume | SysUnit.

#[export] Instance Unit_eq_dec : EqDecision Unit.
Proof. solve_decision. Defined.

#[export] Instance UnitSystem_eq_dec : EqDecision UnitSystem.
Proof. solve_decision. Defined.

Section Model.
Context {num : Type} `{Number num}.
Local Open Scope num_scope.

Record RawMaterialRecord : Type := {
  mat_id : string;
  mat_name : string;
  purchasePrice : num;
  purchaseQuantity : num;
  purchaseUnit : Unit;
  salePrice : option num
}.

Record ProductMaterialInput : Type := {
  materialId : string;
  quantity : num;
  unit : Unit
}.

Record ProductRecord : Type := {
  prod_id : string;
  prod_name : string;
  batchSize : num;
  batchUnit : string;
  materials : list ProductMaterialInput;
  laborCost : num;
  additionalCost : num;
  targetMargin : num;
  overrideSalePrice : option num
}.

(** The object returned by [getMaterialDerivedValues]; a field that is
    [undefined] in the source is [None]. *)
Record MaterialDerivedValues : Type := {
  unitSystem : UnitSystem;
  baseQuantity : num;
  pricePerBaseUnit : num;
  pricePerGram : option num;
  pricePerKilogram : option num;
  pricePerMilliliter : option num;
  pricePerLiter : option num;
  pricePerUnit : option num
}.

(** The object returned by [getProductMaterialCost]. *)
Record MaterialCost : Type := {
  cost : num;
  valid : bool;
  warning : option string
}.

(** An element of [ProductCostResult.breakdown]. *)
Record BreakdownLine : Type := {
  line_materialId : string;
  line_cost : num;
  line_quantity : num;
  line_unit : Unit;
  line_valid : bool;
  line_warning : option string
}.

Record ProductCostResult : Type := {
  totalMaterialCost : num;
  totalCost : num;
  unitCost : num;
  recommendedPrice : num;
  breakdown : list BreakdownLine
}.

(** ** Unit normalisation ([src/lib/types.ts], lines 77-114) *)

Definition getUnitSystem (u : Unit) : UnitSystem :=
  match u with
  | Ug | Ukg => Mass
  | Uml | Ul => Volume
  | Uunit => SysUnit
  end.

Definition convertToBaseUnit (q : num) (u : Unit) : num :=
  match u with
  | Ukg => q * lit 1000
  | Ul => q * lit 1000
  | _ => q
  end.

Definition convertFromBaseUnit (baseQ : num) (targetUnit : Unit) : num :=
  match targetUnit with
  | Ukg => baseQ / lit 1000
  | Ul => baseQ / lit 1000
  | _ => baseQ
  end.

(** ** Cost derivation ([src/lib/types.ts], lines 116-227) *)

Definition getMaterialDerivedValues (material : RawMaterialRecord)
  : MaterialDerivedValues :=
  let unitSystem := getUnitSystem (purchaseUnit material) in
  let baseQuantity :=
    convertToBaseUnit (purchaseQuantity material) (purchaseUnit material) in
  let pricePerBaseUnit :=
    if baseQuantity >? lit 0
    then purchasePrice material / baseQuantity
    else lit 0 in
  {| unitSystem := unitSystem;
     baseQuantity := baseQuantity;
     pricePerBaseUnit := pricePerBaseUnit;
     pricePerGram :=
       if decide (unitSystem = Mass) then Some pricePerBaseUnit else None;
     pricePerKilogram :=
       if decide (unitSystem = Mass)
       then Some (pricePerBaseUnit * lit 1000) else None;
     pricePerMilliliter :=
       if decide (unitSystem = Volume) then Some pricePerBaseUnit else None;
     pricePerLiter :=
       if decide (unitSystem = Volume)
       then Some (pricePerBaseUnit * lit 1000) else None;
     pricePerUnit :=
       if bool_decide (unitSystem = SysUnit)
          && (purchaseQuantity material >? lit 0)
       then Some (purchasePrice material / purchaseQuantity material)
       else None |}.

Definition warning_not_found : string := "Materia prima no encontrada".
Definition warning_incompatible : string :=
  "Unidad incompatible. Ajusta la unidad de la materia prima o del producto".

Definition getProductMaterialCost
    (material : option RawMaterialRecord)
    (requirement : ProductMaterialInput) : MaterialCost :=
  match material with
  | None =>
      {| cost := lit 0; valid := false; warning := Some warning_not_found |}
  | Some material =>
      let derived := getMaterialDerivedValues material in
      let requirementSystem := getUnitSystem (unit requirement) in
      if decide (unitSystem derived <> requirementSystem) then
        {| cost := lit 0; valid := false;
           warning := Some warning_incompatible |}
      else
        let requirementBaseQuantity :=
          convertToBaseUnit (quantity requirement) (unit requirement) in
        {| cost := pricePerBaseUnit derived * requirementBaseQuantity;
           valid := true;
           warning := None |}
  end.

(** [new Map(materials.map((item) => [item.id, item]))]: the entries are
    inserted from left to right, so a later record replaces an earlier one
    with the same id. *)
Definition materialDictionary (materials : list RawMaterialRecord)
  : gmap string RawMaterialRecord :=
  fold_left (fun m item => <[mat_id item := item]> m) materials ∅.

Definition breakdownLine (dict : gmap string RawMaterialRecord)
    (item : ProductMaterialInput) : BreakdownLine :=
  let material := dict !! materialId item in
  let result := getProductMaterialCost material item in
  {| line_materialId := materialId item;
     line_cost := cost result;
     line_quantity := quantity item;
     line_unit := unit item;
     line_valid := valid result;
     line_warning := warning result |}.

Definition calculateProductCosts (product : ProductRecord)
    (rawMaterials : list RawMaterialRecord) : ProductCostResult :=
  let dict := materialDictionary rawMaterials in
  let breakdown := map (breakdownLine dict) (materials product) in
  let totalMaterialCost :=
    fold_left (fun sum item => sum + line_cost item) breakdown (lit 0) in
  let totalCost :=
    totalMaterialCost + laborCost product + additionalCost product in
  let unitCost :=
    if batchSize product >? lit 0
    then totalCost / batchSize product
    else totalCost in
  let recommendedPrice :=
    if targetMargin product >? lit 0
    then unitCost * (lit 1 + targetMargin product / lit 100)
    else unitCost in
  {| totalMaterialCost := totalMaterialCost;
     totalCost := totalCost;
     unitCost := unitCost;
     recommendedPrice := recommendedPrice;
     breakdown := breakdown |}.

(** ** Presentation layer ([src/app/page.tsx], lines 438-453) *)

Record ProductWithDerived : Type := {
  product_of : ProductRecord;
  costs : ProductCostResult;
  derivedSalePrice : num;
  margin : num;
  hasWarnings : bool
}.

(** The body of the [products.map] callback of [productsWithDerived];
    [a ?? b] is [default b a]. *)
Definition productWithDerived (rawMaterials : list RawMaterialRecord)
    (product : ProductRecord) : ProductWithDerived :=
  let costs := calculateProductCosts product rawMaterials in
  let salePrice :=
    default (recommendedPrice costs) (overrideSalePrice product) in
  let margin :=
    if salePrice >? lit 0
    then ((salePrice - unitCost costs) / salePrice) * lit 100
    else lit 0 in
  {| product_of := product;
     costs := costs;
     derivedSalePrice := salePrice;
     margin := margin;
     hasWarnings := existsb (fun item => negb (line_valid item))
                            (breakdown costs) |}.

Definition productsWithDerived (products : list ProductRecord)
    (rawMaterials : list RawMaterialRecord) : list ProductWithDerived :=
  map (productWithDerived rawMaterials) products.

End Model.

Arguments RawMaterialRecord num : clear implicits.
Arguments ProductMaterialInput num : clear implicits.
Arguments ProductRecord num : clear implicits.
Arguments MaterialDerivedValues num : clear implicits.
Arguments MaterialCost num : clear implicits.
Arguments BreakdownLine num : clear implicits.
Arguments ProductCostResult num : clear implicits.
Arguments ProductWithDerived num : clear implicits.

(** ** The scenario of the specification, on binary64 *)

Module Scenario.
Local Open Scope float_scope.

(** A material bought at 1000 for 1 kilogram. *)
Definition soapBase : RawMaterialRecord float :=
  {| mat_id := "m1"; mat_name := "base";
     purchasePrice := 1000; purchaseQuantity := 1; purchaseUnit := Ukg;
     salePrice := None |}.

(** 500 grams of it, batch size 10, labor 200, additional 50, margin 40. *)
Definition soap : ProductRecord float :=
  {| prod_id := "p1"; prod_name := "soap";
     batchSize := 10; batchUnit := "bars";
     materials := [ {| materialId := "m1"; quantity := 500; unit := Ug |} ];
     laborCost := 200; additionalCost := 50; targetMargin := 40;
     overrideSalePrice := None |}.
End Scenario.

(** ** Further inputs, on binary64

    The decimal literals below are read as JavaScript reads them: as the
    nearest binary64 value. *)

#[local] Set Warnings "-inexact-float".

Module Inputs.
Local Open Scope float_scope.

(** A product whose single requirement names a material that is absent. *)
Definition orphan : ProductRecord float :=
  {| prod_id := "p2"; prod_name := "orphan";
     batchSize := 1; batchUnit := "bars";
     materials := [ {| materialId := "gone"; quantity := 3; unit := Ug |} ];
     laborCost := 7; additionalCost := 0; targetMargin := 0;
     overrideSalePrice := None |}.

(** The scenario's product with a batch size of 0. *)
Definition zeroBatch : ProductRecord float :=
  {| prod_id := "p3"; prod_name := "zero batch";
     batchSize := 0; batchUnit := "bars";
     materials := materials Scenario.soap;
     laborCost := 200; additionalCost := 50; targetMargin := 40;
     overrideSalePrice := None |}.

(** A material recorded with a purchase quantity of 0 kilograms. *)
Definition emptyStock : RawMaterialRecord float :=
  {| mat_id := "m0"; mat_name := "empty";
     purchasePrice := 10; purchaseQuantity := 0; purchaseUnit := Ukg;
     salePrice := None |}.

(** Requirements of that material: 2 kilograms, and 1e306 kilograms. *)
Definition twoKilograms : ProductMaterialInput float :=
  {| materialId := "m0"; quantity := 2; unit := Ukg |}.

Definition hugeRequirement : ProductMaterialInput float :=
  {| materialId := "m0"; quantity := 1e306; unit := Ukg |}.

(** A product with a batch size of 0 whose single requirement is 1e306
    kilograms of that material. *)
Definition zeroBatchHuge : ProductRecord float :=
  {| prod_id := "p7"; prod_name := "zero batch, huge";
     batchSize := 0; batchUnit := "bars";
     materials := [hugeRequirement];
     laborCost := 200; additionalCost := 50; targetMargin := 40;
     overrideSalePrice := None |}.

(** The scenario's product with a target margin of 1e-7 (percent). *)
Definition thinMargin : ProductRecord float :=
  {| prod_id := "p4"; prod_name := "thin margin";
     batchSize := 10; batchUnit := "bars";
     materials := materials Scenario.soap;
     laborCost := 200; additionalCost := 50; targetMargin := 1e-7;
     overrideSalePrice := None |}.

(** A quantity of 2.8299 (kilograms or liters). *)
Definition q2_8299 : float := 2.8299.

(** A product without materials whose unit cost is the whole number [u] and
    whose target margin is the whole number [t]. *)
Definition wholeProduct (u t : Z) : ProductRecord float :=
  {| prod_id := "p5"; prod_name := "whole";
     batchSize := 1; batchUnit := "bars";
     materials := [];
     laborCost := lit u; additionalCost := 0; targetMargin := lit t;
     overrideSalePrice := None |}.

(** The displayed margin of [wholeProduct u t] is below its target. *)
Definition marginBelowTarget (u t : Z) : bool :=
  margin (productWithDerived [] (wholeProduct u t)) <? lit t.

(** The whole numbers from 1 to [n]. *)
Definition upTo (n : nat) : list Z := map Z.of_nat (seq 1 n).

End Inputs.

(** ** Vocabulary for binary64 values *)

Module B64.
Local Open Scope float_scope.

(** [Number.isFinite] of JavaScript. *)
Definition isFinite (x : float) : bool :=
  match Prim2SF x with
  | S754_zero _ | S754_finite _ _ _ => true
  | S754_infinity _ | S754_nan => false
  end.

(** [Number.isNaN] of JavaScript. *)
Definition isNaN (x : float) : bool :=
  match Prim2SF x with
  | S754_nan => true
  | _ => false
  end.

(** Every finite binary64 value is an integer multiple of 2^-1074, the
    smallest positive value; [ulps x] is that integer. *)
Definition ulps (x : float) : option Z :=
  match Prim2SF x with
  | S754_zero _ => Some 0%Z
  | S754_finite s m e => Some (cond_Zopp s (Zpos m * 2 ^ (e + 1074)))%Z
  | S754_infinity _ | S754_nan => None
  end.

(** The product [q * 1000] is computed without rounding and without
    overflow: its value is exactly 1000 times the value of [q]. *)
Definition exactTimesThousand (q : float) : Prop :=
  exists n : Z, ulps q = Some n /\ ulps (q * 1000) = Some (1000 * n)%Z.

End B64.

(** ** The two price formulas of the specification, in its words

    "unitCost × (1 + targetMargin/100)" is the cost-plus markup and
    "cost / (1 - margin/100)" the margin-on-price formula. *)

Section Formulas.
Context {num : Type} `{Number num}.
Local Open Scope num_scope.

Definition costPlusMarkup (unitCost targetMargin : num) : num :=
  unitCost * (lit 1 + targetMargin / lit 100).

Definition marginOnPrice (unitCost targetMargin : num) : num :=
  unitCost / (lit 1 - targetMargin / lit 100).

End Formulas.

(** ** Presentation layer: unit choices and form rows
    ([src/app/page.tsx], lines 83-85, 269-276 and 833-917) *)

Definition MASS_UNITS : list Unit := [Ug; Ukg].
Definition VOLUME_UNITS : list Unit := [Uml; Ul].
Definition PIECE_UNITS : list Unit := [Uunit].

Definition getUnitOptionsForSystem (u : Unit) : list Unit :=
  match getUnitSystem u with
  | Mass => MASS_UNITS
  | Volume => VOLUME_UNITS
  | SysUnit => PIECE_UNITS
  end.

Definition getSuggestedUnit (purchaseUnit : Unit) : Unit :=
  match purchaseUnit with
  | Ukg => Ug
  | Ul => Uml
  | _ => purchaseUnit
  end.

(** [type ProductMaterialForm]: a row of the product form; the quantity is
    the text of the input field. *)
Record ProductMaterialForm : Type := {
  row_id : string;
  row_materialId : string;
  row_quantity : string;
  row_unit : Unit
}.

(** [type ProductFormState]. *)
Record ProductFormState : Type := {
  form_id : option string;
  form_name : string;
  form_description : string;
  form_batchSize : string;
  form_batchUnit : string;
  form_laborCost : string;
  form_additionalCost : string;
  form_targetMargin : string;
  form_overrideSalePrice : string;
  form_materials : list ProductMaterialForm
}.

(** The arguments [field] and [value] of [updateProductMaterialField]: the
    field is a key of [ProductMaterialForm] and the value a string, which the
    source reads as a [Unit] when the field is ["unit"]. *)
Inductive FieldUpdate : Type :=
  | SetRowId (value : string)
  | SetMaterialId (value : string)
  | SetQuantity (value : string)
  | SetUnit (value : Unit).

(** [{ ...prev, materials }] *)
Definition withFormMaterials (prev : ProductFormState)
    (rows : list ProductMaterialForm) : ProductFormState :=
  {| form_id := form_id prev;
     form_name := form_name prev;
     form_description := form_description prev;
     form_batchSize := form_batchSize prev;
     form_batchUnit := form_batchUnit prev;
     form_laborCost := form_laborCost prev;
     form_additionalCost := form_additionalCost prev;
     form_targetMargin := form_targetMargin prev;
     form_overrideSalePrice := form_overrideSalePrice prev;
     form_materials := rows |}.

(** [createMaterialRow]; the random identifier it draws is the argument. *)
Definition createMaterialRow (freshId : string) : ProductMaterialForm :=
  {| row_id := freshId; row_materialId := ""; row_quantity := "";
     row_unit := Ug |}.

Definition addMaterialLine (freshId : string) (prev : ProductFormState)
  : ProductFormState :=
  withFormMaterials prev (form_materials prev ++ [createMaterialRow freshId]).

Definition removeMaterialLine (id : string) (prev : ProductFormState)
  : ProductFormState :=
  withFormMaterials prev
    (if (1 <? length (form_materials prev))%nat
     then List.filter (fun item => negb (bool_decide (row_id item = id)))
            (form_materials prev)
     else form_materials prev).

(** [expandedProductRows] is a [Record<string, boolean>]; a missing key
    reads as [undefined], whose negation is [true]. *)
Definition toggleProductDetails (id : string) (prev : gmap string bool)
  : gmap string bool :=
  <[id := negb (default false (prev !! id))]> prev.

(** [Boolean(expandedProductRows[product.id])] *)
Definition isExpanded (rows : gmap string bool) (id : string) : bool :=
  default false (rows !! id).

Section Page.
Context {num : Type} `{Number num}.
Local Open Scope num_scope.

(** [rawMaterials.find((material) => material.id === id)] *)
Definition getMaterialById (rawMaterials : list (RawMaterialRecord num))
    (id : string) : option (RawMaterialRecord num) :=
  List.find (fun material => bool_decide (mat_id material = id)) rawMaterials.

(** The callback of [prev.materials.map] in [updateProductMaterialField],
    for a row whose id is the one given. *)
Definition updateRow (rawMaterials : list (RawMaterialRecord num))
    (update : FieldUpdate) (item : ProductMaterialForm)
  : ProductMaterialForm :=
  match update with
  | SetMaterialId value =>
      let selectedMaterial := getMaterialById rawMaterials value in
      let allowedUnits :=
        match selectedMaterial with
        | Some material => getUnitOptionsForSystem (purchaseUnit material)
        | None => MASS_UNITS
        end in
      let nextUnit :=
        match selectedMaterial with
        | Some material =>
            if negb (bool_decide (row_unit item ∈ allowedUnits))
            then getSuggestedUnit (purchaseUnit material)
            else row_unit item
        | None => row_unit item
        end in
      {| row_id := row_id item; row_materialId := value;
         row_quantity := row_quantity item; row_unit := nextUnit |}
  | SetUnit value =>
      {| row_id := row_id item; row_materialId := row_materialId item;
         row_quantity := row_quantity item; row_unit := value |}
  | SetRowId value =>
      {| row_id := value; row_materialId := row_materialId item;
         row_quantity := row_quantity item; row_unit := row_unit item |}
  | SetQuantity value =>
      {| row_id := row_id item; row_materialId := row_materialId item;
         row_quantity := value; row_unit := row_unit item |}
  end.

Definition updateProductMaterialField
    (rawMaterials : list (RawMaterialRecord num)) (id : string)
    (update : FieldUpdate) (prev : ProductFormState) : ProductFormState :=
  withFormMaterials prev
    (map (fun item =>
            if negb (bool_decide (row_id item = id)) then item
            else updateRow rawMaterials update item)
         (form_materials prev)).

(** An element of [enrichedMaterials]: [{ ...material, derived }]. *)
Record EnrichedMaterial : Type := {
  em_material : RawMaterialRecord num;
  em_derived : MaterialDerivedValues num
}.

Definition enrichedMaterials (rawMaterials : list (RawMaterialRecord num))
  : list EnrichedMaterial :=
  map (fun material =>
         {| em_material := material;
            em_derived := getMaterialDerivedValues material |})
      rawMaterials.

End Page.

Arguments EnrichedMaterial num : clear implicits.

(** ** Presentation layer: inventory statistics
    ([src/app/page.tsx], lines 405-436), on binary64 *)

Module Stats.
Local Open Scope float_scope.

(** The truth value JavaScript gives a number: false for [0], [-0], NaN. *)
Definition truthy (x : float) : bool :=
  negb (x =? 0) && negb (B64.isNaN x).

(** The truth value of a field that may be [undefined]. *)
Definition truthyField (field : option float) : bool :=
  match field with
  | Some x => truthy x
  | None => false
  end.

Record MaterialStats : Type := {
  stats_count : nat;
  totalInventoryCost : float;
  averagePricePerKg : float;
  averagePricePerLiter : float
}.

Definition materialStats (enriched : list (EnrichedMaterial float))
  : MaterialStats :=
  let count := length enriched in
  let totalInventoryCost :=
    fold_left (fun sum item => sum + purchasePrice (em_material item))
      enriched 0 in
  let averagePricePerKg :=
    let prices :=
      map (fun item => default 0 (pricePerKilogram (em_derived item)))
        (List.filter
           (fun item => truthyField (pricePerKilogram (em_derived item)))
           enriched) in
    if (length prices =? 0)%nat then 0
    else fold_left (fun sum value => sum + value) prices 0
         / lit (Z.of_nat (length prices)) in
  let averagePricePerLiter :=
    let prices :=
      map (fun item => default 0 (pricePerLiter (em_derived item)))
        (List.filter
           (fun item => truthyField (pricePerLiter (em_derived item)))
           enriched) in
    if (length prices =? 0)%nat then 0
    else fold_left (fun sum value => sum + value) prices 0
         / lit (Z.of_nat (length prices)) in
  {| stats_count := count;
     totalInventoryCost := totalInventoryCost;
     averagePricePerKg := averagePricePerKg;
     averagePricePerLiter := averagePricePerLiter |}.

End Stats.

(** ** Vocabulary for the statements about the material dictionary *)

Section Vocabulary.
Context {num : Type} `{Number num}.

(** The test of [getMaterialById]: [material.id === id]. *)
Definition hasId (id : string) (material : RawMaterialRecord num) : bool :=
  bool_decide (mat_id material = id).

(** The breakdown line of a requirement whose material is not found. *)
Definition notFoundLine (requirement : ProductMaterialInput num)
  : BreakdownLine num :=
  {| line_materialId := materialId requirement;
     line_cost := lit 0;
     line_quantity := quantity requirement;
     line_unit := unit requirement;
     line_valid := false;
     line_warning := Some warning_not_found |}.

End Vocabulary.

(** ** Further inputs: form states and a product with a huge requirement *)

Module FormInputs.
Local Open Scope float_scope.

Definition row1 : ProductMaterialForm :=
  {| row_id := "r1"; row_materialId := ""; row_quantity := "";
     row_unit := Uml |}.

Definition row2 : ProductMaterialForm :=
  {| row_id := "r2"; row_materialId := "m0"; row_quantity := "2";
     row_unit := Ukg |}.

Definition formOf (rows : list ProductMaterialForm) : ProductFormState :=
  {| form_id := None; form_name := "soap"; form_description := "";
     form_batchSize := "10"; form_batchUnit := "unidades";
     form_laborCost := "200"; form_additionalCost := "50";
     form_targetMargin := "40"; form_overrideSalePrice := "";
     form_materials := rows |}.

(** A product that requires 1e306 kilograms of [Inputs.emptyStock]. *)
Definition hugeOrder : ProductRecord float :=
  {| prod_id := "p6"; prod_name := "huge";
     batchSize := 10; batchUnit := "bars";
     materials := [Inputs.hugeRequirement];
     laborCost := 200; additionalCost := 50; targetMargin := 40;
     overrideSalePrice := None |}.

End FormInputs.

(** ** Properties that hold in every arithmetic *)

Section Generic.
Context {num : Type} `{Number num}.
Local Open Scope num_scope.

Implicit Types (material : RawMaterialRecord num)
               (requirement : ProductMaterialInput num)
               (product : ProductRecord num).

Lemma getProductMaterialCost_absent requirement :
  getProductMaterialCost None requirement
  = {| cost := lit 0; valid := false; warning := Some warning_not_found |}.
Proof. reflexivity. Qed.

Lemma getProductMaterialCost_incompatible material requirement :
  getUnitSystem (purchaseUnit material) <> getUnitSystem (unit requirement) ->
  getProductMaterialCost (Some material) requirement
  = {| cost := lit 0; valid := false;
       warning := Some warning_incompatible |}.
Proof.
  intros Hne. unfold getProductMaterialCost. cbn.
  destruct (decide _) as [_|Hn]; [reflexivity|].
  exfalso. apply Hn. exact Hne.
Qed.

Lemma getProductMaterialCost_compatible material requirement :
  getUnitSystem (purchaseUnit material) = getUnitSystem (unit requirement) ->
  getProductMaterialCost (Some material) requirement
  = {| cost := pricePerBaseUnit (getMaterialDerivedValues material)
               * convertToBaseUnit (quantity requirement) (unit requirement);
       valid := true; warning := None |}.
Proof.
  intros He. unfold getProductMaterialCost. cbn.
  destruct (decide _) as [Hn|_]; [|reflexivity].
  exfalso. apply Hn. exact He.
Qed.

(** The three shapes of result are told apart by [valid] alone. *)
Lemma getProductMaterialCost_valid (om : option (RawMaterialRecord num))
    requirement :
  valid (getProductMaterialCost om requirement)
  = match om with
    | None => false
    | Some material =>
        bool_decide (getUnitSystem (purchaseUnit material)
                     = getUnitSystem (unit requirement))
    end.
Proof.
  destruct om as [material|]; [|reflexivity].
  destruct (decide (getUnitSystem (purchaseUnit material)
                    = getUnitSystem (unit requirement))) as [He|Hne].
  - rewrite getProductMaterialCost_compatible by exact He.
    rewrite bool_decide_eq_true_2 by exact He. reflexivity.
  - rewrite getProductMaterialCost_incompatible by exact Hne.
    rewrite bool_decide_eq_false_2 by exact Hne. reflexivity.
Qed.

Lemma invalid_cost_zero (om : option (RawMaterialRecord num)) requirement :
  valid (getProductMaterialCost om requirement) = false ->
  cost (getProductMaterialCost om requirement) = lit 0.
Proof.
  destruct om as [material|]; [|reflexivity].
  destruct (decide (getUnitSystem (purchaseUnit material)
                    = getUnitSystem (unit requirement))) as [He|Hne].
  - rewrite getProductMaterialCost_compatible by exact He. discriminate.
  - rewrite getProductMaterialCost_incompatible by exact Hne. reflexivity.
Qed.

Lemma invalid_has_warning (om : option (RawMaterialRecord num)) requirement :
  valid (getProductMaterialCost om requirement) = false ->
  is_Some (warning (getProductMaterialCost om requirement)).
Proof.
  destruct om as [material|]; [|intros _; eexists; reflexivity].
  destruct (decide (getUnitSystem (purchaseUnit material)
                    = getUnitSystem (unit requirement))) as [He|Hne].
  - rewrite getProductMaterialCost_compatible by exact He. discriminate.
  - rewrite getProductMaterialCost_incompatible by exact Hne.
    intros _. eexists. reflexivity.
Qed.

End Generic.

(** ** Facts about binary64 arithmetic

    Rocq's primitive floats are specified by [Prim2SF], which maps a float to
    its IEEE 754 description [spec_float] (a zero, an infinity, NaN, or a
    sign, a mantissa and an exponent), and by one equation per operation
    ([mul_spec], [div_spec], [ltb_spec], ...) that gives its result as the
    function of [SpecFloat] computes it, rounding to nearest even. *)

Module B64Facts.
Import B64.
Local Open Scope float_scope.

Lemma Prim2SF_zero : Prim2SF 0 = S754_zero false.
Proof. reflexivity. Qed.

Lemma Prim2SF_thousand :
  Prim2SF 1000 = S754_finite false 8796093022208000 (-43).
Proof. reflexivity. Qed.

(** *** Comparison *)

(** Swapping the arguments of a comparison reverses its result. *)
Lemma SFcompare_antisym (x y : spec_float) :
  SFcompare y x = option_map CompOpp (SFcompare x y).
Proof.
  destruct x as [sx|sx| |sx mx ex], y as [sy|sy| |sy my ey]; cbn;
    try reflexivity;
    try (destruct sx; reflexivity);
    try (destruct sy; reflexivity);
    try (destruct sx, sy; reflexivity).
  f_equal.
  assert (Hm : Pos.compare_cont Eq my mx = CompOpp (Pos.compare_cont Eq mx my))
    by (rewrite Pos.compare_cont_antisym; reflexivity).
  destruct sx, sy; cbn; try reflexivity;
    rewrite (Z.compare_antisym ey ex);
    destruct (ey ?= ex)%Z; cbn; try reflexivity;
    fold (Pos.compare_cont Eq my mx); fold (Pos.compare_cont Eq mx my);
    rewrite Hm; try rewrite CompOpp_involutive; reflexivity.
Qed.

(** [x <= y] excludes [x > y]. *)
Lemma leb_gtb_false (x y : float) :
  (x <=? y) = true -> (y <? x) = false.
Proof.
  rewrite leb_spec, ltb_spec. unfold SFleb, SFltb.
  rewrite (SFcompare_antisym (Prim2SF x) (Prim2SF y)).
  destruct (SFcompare (Prim2SF x) (Prim2SF y)) as [[]|]; cbn; congruence.
Qed.

(** *** Zero *)

(** Adding [0] changes nothing, except that [-0 + 0] is [+0]. *)
Lemma add_zero_r (x : float) :
  x + 0 = x \/ (x = (-0) /\ x + 0 = 0).
Proof.
  destruct (Prim2SF x) as [[]|s| |s m e] eqn:Hx.
  - right.
    assert (x = (-0)) as -> by (apply Prim2SF_inj; rewrite Hx; reflexivity).
    split; reflexivity.
  - left. apply Prim2SF_inj. rewrite add_spec, Hx. reflexivity.
  - left. apply Prim2SF_inj. rewrite add_spec, Hx. reflexivity.
  - left. apply Prim2SF_inj. rewrite add_spec, Hx. reflexivity.
  - left. apply Prim2SF_inj. rewrite add_spec, Hx. reflexivity.
Qed.

(** [0 * x] is a zero ([+0] or [-0]) when [x] is finite. *)
Lemma mul_zero_finite (x : float) :
  isFinite x = true -> (0 * x =? 0) = true.
Proof.
  unfold isFinite. intros Hfin.
  rewrite FloatAxioms.eqb_spec, mul_spec, Prim2SF_zero.
  destruct (Prim2SF x) as [s|s| |s m e]; try discriminate; reflexivity.
Qed.

(** [0 * x] is NaN when [x] is not finite. *)
Lemma mul_zero_not_finite (x : float) :
  isFinite x = false -> isNaN (0 * x) = true.
Proof.
  unfold isFinite, isNaN. intros Hfin.
  rewrite mul_spec, Prim2SF_zero.
  destruct (Prim2SF x) as [s|s| |s m e]; try discriminate; reflexivity.
Qed.

(** [x = 0] (as numbers: [+0] or [-0]) excludes [x > 0]. *)
Lemma eqb_gtb_false (x y : float) :
  (x =? y) = true -> (y <? x) = false.
Proof.
  rewrite FloatAxioms.eqb_spec, ltb_spec. unfold SFeqb, SFltb.
  rewrite (SFcompare_antisym (Prim2SF x) (Prim2SF y)).
  destruct (SFcompare (Prim2SF x) (Prim2SF y)) as [[]|]; cbn; congruence.
Qed.

(** *** Mantissas: number of digits, shifts *)

Local Open Scope Z_scope.

Lemma digits2_pos_size (m : positive) : digits2_pos m = Pos.size m.
Proof. induction m; cbn; congruence. Qed.

Lemma digits2_bounds (m : positive) :
  2 ^ (Zpos (digits2_pos m) - 1) <= Zpos m < 2 ^ Zpos (digits2_pos m).
Proof.
  rewrite digits2_pos_size.
  pose proof (Pos.size_gt m) as Hgt.
  pose proof (Pos.size_le m) as Hle.
  split.
  - apply Pos2Z.pos_le_pos in Hle. rewrite Pos2Z.inj_pow in Hle.
    replace (Zpos (Pos.size m)) with (Z.succ (Zpos (Pos.size m) - 1)) in Hle
      by lia.
    rewrite Z.pow_succ_r in Hle by lia.
    change (Zpos m~0) with (2 * Zpos m) in Hle. lia.
  - apply Pos2Z.pos_lt_pos in Hgt. rewrite Pos2Z.inj_pow in Hgt. exact Hgt.
Qed.

Lemma iter_pos_iter {A} (f : A -> A) (n : positive) (x : A) :
  SpecFloat.iter_pos f n x = Pos.iter f x n.
Proof.
  revert x. induction n as [n IH|n IH|]; intros x; cbn.
  - rewrite !IH. rewrite <- !Pos.iter_swap. reflexivity.
  - rewrite !IH. reflexivity.
  - reflexivity.
Qed.

(** Shifting right by [k] bits a mantissa that ends in [k] zero bits loses
    nothing: the round and sticky bits stay clear. *)
Lemma shr_exact (m k : positive) :
  SpecFloat.iter_pos shr_1 k
    {| shr_m := Zpos (Pos.iter xO m k); shr_r := false; shr_s := false |}
  = {| shr_m := Zpos m; shr_r := false; shr_s := false |}.
Proof.
  rewrite iter_pos_iter.
  induction k as [|k IH] using Pos.peano_ind.
  - reflexivity.
  - rewrite !Pos.iter_succ. rewrite <- Pos.iter_swap. cbn. exact IH.
Qed.

Lemma iter_xO_pow (m k : positive) :
  Zpos (Pos.iter xO m k) = Zpos m * 2 ^ Zpos k.
Proof.
  induction k as [|k IH] using Pos.peano_ind.
  - cbn. lia.
  - rewrite Pos.iter_succ, Pos2Z.inj_succ, Z.pow_succ_r by lia.
    change (Zpos (Pos.iter xO m k)~0) with (2 * Zpos (Pos.iter xO m k)). lia.
Qed.

Lemma digits2_iter_xO (m k : positive) :
  Zpos (digits2_pos (Pos.iter xO m k)) = Zpos (digits2_pos m) + Zpos k.
Proof.
  induction k as [|k IH] using Pos.peano_ind.
  - cbn. lia.
  - rewrite Pos.iter_succ. cbn [digits2_pos]. lia.
Qed.

Lemma fexp64 (x : Z) : fexp prec emax x = Z.max (x - 53) (-1074).
Proof. reflexivity. Qed.

(** A valid mantissa and exponent: at most 53 digits, exactly 53 unless the
    exponent is the least one, -1074. *)
Lemma bounded_canonical (m : positive) (e : Z) :
  bounded prec emax m e = true ->
  Z.max (Zpos (digits2_pos m) + e - 53) (-1074) = e /\ e <= 971.
Proof.
  unfold bounded, canonical_mantissa. rewrite fexp64.
  intros Hb. apply andb_true_iff in Hb as [Hc He].
  apply Z.eqb_eq in Hc. apply Z.leb_le in He. split; [exact Hc|exact He].
Qed.

Lemma pow2_lt_inv (a b : Z) : 0 <= b -> 2 ^ a < 2 ^ b -> a < b.
Proof. intros Hb Hlt. apply (Z.pow_lt_mono_r_iff 2); lia. Qed.

(** *** Exact rounding *)

Lemma shr_fexp_canonical (m : positive) (e : Z) :
  canonical_mantissa prec emax m e = true ->
  shr_fexp prec emax (Zpos m) e loc_Exact
  = ({| shr_m := Zpos m; shr_r := false; shr_s := false |}, e).
Proof.
  unfold canonical_mantissa, shr_fexp. intros Hc. apply Z.eqb_eq in Hc.
  cbn [Zdigits2 shr_record_of_loc]. rewrite Hc, Z.sub_diag. reflexivity.
Qed.

Lemma shr_fexp_exact (m : positive) (e : Z) (mz : positive) (ez : Z) :
  canonical_mantissa prec emax m e = true ->
  ez <= e ->
  Zpos mz = Zpos m * 2 ^ (e - ez) ->
  shr_fexp prec emax (Zpos mz) ez loc_Exact
  = ({| shr_m := Zpos m; shr_r := false; shr_s := false |}, e).
Proof.
  intros Hc Hle Hmz.
  destruct (Z.eq_dec ez e) as [->|Hne].
  - rewrite Z.sub_diag, Z.pow_0_r, Z.mul_1_r in Hmz. injection Hmz as ->.
    apply shr_fexp_canonical. exact Hc.
  - destruct (e - ez) as [|k|k] eqn:Hk; try lia.
    rewrite <- iter_xO_pow in Hmz. injection Hmz as ->.
    unfold canonical_mantissa in Hc. apply Z.eqb_eq in Hc.
    unfold shr_fexp. cbn [Zdigits2 shr_record_of_loc].
    rewrite digits2_iter_xO.
    replace (Zpos (digits2_pos m) + Zpos k + ez)
      with (Zpos (digits2_pos m) + e) by lia.
    rewrite Hc, Hk. unfold shr. rewrite shr_exact. f_equal. lia.
Qed.

(** Rounding a number that is a binary64 value gives this value: [mz] and
    [ez] describe the number [m * 2^e] with a smaller exponent. *)
Lemma binary_round_aux_exact (s : bool) (m : positive) (e : Z)
    (mz : positive) (ez : Z) :
  bounded prec emax m e = true ->
  ez <= e ->
  Zpos mz = Zpos m * 2 ^ (e - ez) ->
  binary_round_aux prec emax s (Zpos mz) ez loc_Exact = S754_finite s m e.
Proof.
  unfold bounded. intros Hb Hle Hmz. apply andb_true_iff in Hb as [Hc He].
  unfold binary_round_aux.
  rewrite (shr_fexp_exact m e mz ez Hc Hle Hmz).
  cbn [shr_m loc_of_shr_record round_nearest_even].
  rewrite (shr_fexp_canonical m e Hc). cbn [shr_m].
  rewrite He. reflexivity.
Qed.

(** *** Division by 1000 *)

(** If the dividend is exactly 1000 times a binary64 value, dividing it by
    1000 returns that value: the quotient of the mantissas has remainder 0
    and is rounded exactly.  Values are compared in units of 2^-1074. *)
Lemma SFdiv_thousand_exact (s : bool) (m : positive) (e : Z)
    (mp : positive) (ep : Z) :
  bounded prec emax m e = true ->
  bounded prec emax mp ep = true ->
  Zpos mp * 2 ^ (ep + 1074) = 1000 * (Zpos m * 2 ^ (e + 1074)) ->
  SF64div (S754_finite s mp ep) (S754_finite false 8796093022208000 (-43))
  = S754_finite s m e.
Proof.
  intros Hb Hbp Hval.
  pose proof (bounded_canonical m e Hb) as [Hc He].
  pose proof (bounded_canonical mp ep Hbp) as [Hcp Hep].
  pose proof (digits2_bounds m) as [Hm1 Hm2].
  pose proof (digits2_bounds mp) as [Hp1 Hp2].
  set (dm := Zpos (digits2_pos m)) in *.
  set (dp := Zpos (digits2_pos mp)) in *.
  assert (Hdm : 0 < dm) by (subst dm; lia).
  assert (Hdp : 0 < dp) by (subst dp; lia).
  (* the exponent chosen by the division *)
  set (e' := Z.max (dp + ep - 63) (-1074)).
  assert (Hdigits : dp + ep <= dm + e + 10).
  { assert (Hlt : 2 ^ (dp - 1 + (ep + 1074)) < 2 ^ (10 + dm + (e + 1074))).
    { replace (10 + dm + (e + 1074)) with (10 + (dm + (e + 1074))) by lia.
      rewrite (Z.pow_add_r 2 (dp - 1)), (Z.pow_add_r 2 10),
        (Z.pow_add_r 2 dm) by lia.
      assert (HP : 0 < 2 ^ (ep + 1074)) by (apply Z.pow_pos_nonneg; lia).
      assert (HE : 0 < 2 ^ (e + 1074)) by (apply Z.pow_pos_nonneg; lia).
      assert (H1 : 2 ^ (dp - 1) * 2 ^ (ep + 1074)
                   <= Zpos mp * 2 ^ (ep + 1074))
        by (apply Z.mul_le_mono_nonneg_r; lia).
      assert (H2 : Zpos m * 2 ^ (e + 1074) < 2 ^ dm * 2 ^ (e + 1074))
        by (apply Z.mul_lt_mono_pos_r; lia).
      change (2 ^ 10) with 1024.
      remember (2 ^ dm * 2 ^ (e + 1074)) as D.
      remember (Zpos m * 2 ^ (e + 1074)) as C.
      lia. }
    apply pow2_lt_inv in Hlt; lia. }
  assert (He'e : e' <= e) by (subst e'; lia).
  assert (He'p : e' <= ep) by (subst e'; lia).
  assert (He'lo : -1074 <= e') by (subst e'; lia).
  assert (Hq : Zpos mp * 2 ^ (ep - e') = 1000 * (Zpos m * 2 ^ (e - e'))).
  { replace (ep + 1074) with ((ep - e') + (e' + 1074)) in Hval by lia.
    replace (e + 1074) with ((e - e') + (e' + 1074)) in Hval by lia.
    rewrite (Z.pow_add_r 2 (ep - e')), (Z.pow_add_r 2 (e - e')) in Hval
      by lia.
    assert (Hpos : 0 < 2 ^ (e' + 1074)) by (apply Z.pow_pos_nonneg; lia).
    apply (Z.mul_cancel_r _ _ (2 ^ (e' + 1074))); [lia|].
    remember (2 ^ (e' + 1074)) as K. remember (2 ^ (ep - e')) as P.
    remember (2 ^ (e - e')) as E. lia. }
  unfold SF64div, SFdiv, SFdiv_core_binary.
  cbn [Zdigits2 xorb].
  change (Zpos (digits2_pos 8796093022208000)) with 53.
  fold dp. rewrite fexp64.
  replace (dp + ep - (53 + -43) - 53) with (dp + ep - 63) by lia.
  fold e'.
  rewrite (Z.min_l e' (ep - -43)) by lia.
  destruct (ep - -43 - e') as [|k|k] eqn:Hk; try lia.
  rewrite Z.shiftl_mul_pow2 by lia.
  assert (Hm' : Zpos mp * 2 ^ Zpos k
                = (Zpos m * 2 ^ (e - e')) * 8796093022208000).
  { replace (Zpos k) with ((ep - e') + 43) by lia.
    rewrite Z.pow_add_r by lia. change (2 ^ 43) with 8796093022208. lia. }
  rewrite Hm'.
  pose proof (Z.div_eucl_eq (Zpos m * 2 ^ (e - e') * 8796093022208000)
                8796093022208000 ltac:(lia)) as Heq.
  pose proof (Z.mod_pos_bound (Zpos m * 2 ^ (e - e') * 8796093022208000)
                8796093022208000 ltac:(lia)) as Hbound.
  unfold Z.modulo in Hbound.
  destruct (Z.div_eucl _ _) as [q r].
  assert (Hr : r = 0) by lia.
  assert (Hqv : q = Zpos m * 2 ^ (e - e')) by lia.
  subst r.
  change (new_location 8796093022208000 0) with loc_Exact.
  assert (Hqpos : 0 < q).
  { rewrite Hqv. apply Z.mul_pos_pos; [lia|]. apply Z.pow_pos_nonneg; lia. }
  destruct q as [|mq|mq]; try lia.
  rewrite xorb_false_r.
  apply binary_round_aux_exact; [exact Hb|exact He'e|exact Hqv].
Qed.

Local Close Scope Z_scope.

(** *** The round trip through [* 1000] and [/ 1000] *)

Lemma Prim2SF_bounded (x : float) (s : bool) (m : positive) (e : Z) :
  Prim2SF x = S754_finite s m e -> bounded prec emax m e = true.
Proof.
  intros Hx. pose proof (Prim2SF_valid x) as Hv. rewrite Hx in Hv. exact Hv.
Qed.

Lemma ulps_finite_pos (m : positive) (e : Z) :
  bounded prec emax m e = true -> (0 < Zpos m * 2 ^ (e + 1074))%Z.
Proof.
  intros Hb. pose proof (bounded_canonical m e Hb) as [Hc _].
  apply Z.mul_pos_pos; [lia|]. apply Z.pow_pos_nonneg; lia.
Qed.

Lemma Some_eq {A : Type} (a b : A) : Some a = Some b -> a = b.
Proof. intros Heq. injection Heq as Heq. exact Heq. Qed.

(** When [q * 1000] is computed exactly, dividing it by 1000 returns [q]. *)
Lemma mul_div_thousand_exact (q : float) (n : Z) :
  ulps q = Some n ->
  ulps (q * 1000) = Some (1000 * n)%Z ->
  q * 1000 / 1000 = q.
Proof.
  unfold ulps. intros Hq Hp.
  apply Prim2SF_inj. rewrite div_spec, Prim2SF_thousand.
  rewrite mul_spec, Prim2SF_thousand in Hp |- *.
  destruct (Prim2SF q) as [s|s| |s m e] eqn:Hx; try discriminate.
  - cbn. destruct s; reflexivity.
  - pose proof (Prim2SF_bounded q s m e Hx) as Hb.
    pose proof (ulps_finite_pos m e Hb) as Hpos.
    apply Some_eq in Hq. subst n.
    destruct (SF64mul _ _) as [s'|s'| |s' m' e'] eqn:Hmul; try discriminate.
    + apply Some_eq in Hp. destruct s; cbn [cond_Zopp] in Hp; lia.
    + assert (Hb' : bounded prec emax m' e' = true).
      { pose proof (Prim2SF_valid (q * 1000)) as Hv.
        rewrite mul_spec, Hx, Prim2SF_thousand, Hmul in Hv. exact Hv. }
      pose proof (ulps_finite_pos m' e' Hb') as Hpos'.
      apply Some_eq in Hp.
      assert (s' = s /\ (Zpos m' * 2 ^ (e' + 1074)
                         = 1000 * (Zpos m * 2 ^ (e + 1074)))%Z) as [-> Hval].
      { destruct s, s'; cbn [cond_Zopp] in Hp; split; try reflexivity; lia. }
      apply SFdiv_thousand_exact; assumption.
Qed.

(** *** Signs *)

(** Rounding keeps the sign it is given. *)
Lemma binary_round_aux_sign (sx : bool) (mx ex : Z) (lx : location) :
  match binary_round_aux prec emax sx mx ex lx with
  | S754_zero s | S754_infinity s | S754_finite s _ _ => s = sx
  | S754_nan => True
  end.
Proof.
  unfold binary_round_aux.
  destruct (shr_fexp prec emax mx ex lx) as [mrs' e'].
  destruct (shr_fexp prec emax _ e' loc_Exact) as [mrs'' e''].
  destruct (shr_m mrs''); [reflexivity| |exact I].
  destruct (e'' <=? emax - prec)%Z; reflexivity.
Qed.

(** [q <= 0] excludes [q * 1000 > 0]. *)
Lemma mul_thousand_nonpos (q : float) :
  (q <=? 0) = true -> (0 <? q * 1000) = false.
Proof.
  rewrite leb_spec, ltb_spec, mul_spec, Prim2SF_thousand.
  change (Prim2SF 0) with (S754_zero false).
  destruct (Prim2SF q) as [s|s| |s m e]; cbn [SF64mul SFmul].
  - intros _. reflexivity.
  - destruct s; [reflexivity|discriminate].
  - discriminate.
  - destruct s; [intros _|discriminate].
    pose proof (binary_round_aux_sign (xorb true false)
                  (Zpos (m * 8796093022208000)) (e + -43) loc_Exact) as Hs.
    destruct (binary_round_aux _ _ _ _ _ _) as [s'|s'| |s' m' e'];
      try reflexivity; cbn in Hs; subst s'; reflexivity.
Qed.

(** *** Whole numbers *)

Local Open Scope Z_scope.

(** A positive integer below 2^53 is a binary64 value: its mantissa is the
    integer shifted left to 53 digits. *)
Lemma canonical_of_integer (N : positive) :
  Zpos N < 2 ^ 53 ->
  exists (M : positive) (E : Z),
    bounded prec emax M E = true /\ -52 <= E <= 0
    /\ E = Zpos (digits2_pos N) - 53
    /\ Zpos M = Zpos N * 2 ^ (- E)
    /\ Zpos M * 2 ^ (E + 1074) = Zpos N * 2 ^ 1074.
Proof.
  intros HN.
  pose proof (digits2_bounds N) as [Hlo _].
  set (d := Zpos (digits2_pos N)) in *.
  assert (Hd0 : 0 < d) by (subst d; lia).
  assert (Hd : d <= 53).
  { assert (Hlt : 2 ^ (d - 1) < 2 ^ 53) by lia.
    apply pow2_lt_inv in Hlt; lia. }
  destruct (53 - d) as [|k|k] eqn:Hk; try lia.
  - exists N, 0. split; [|split; [lia|split; [lia|split]]].
    + unfold bounded, canonical_mantissa. rewrite fexp64. fold d.
      apply andb_true_iff. split; [apply Z.eqb_eq; lia|reflexivity].
    + cbn. lia.
    + reflexivity.
  - exists (Pos.iter xO N k), (- Zpos k).
    split; [|split; [lia|split; [lia|split]]].
    + unfold bounded, canonical_mantissa. rewrite fexp64, digits2_iter_xO.
      fold d. apply andb_true_iff.
      split; [apply Z.eqb_eq|apply Z.leb_le; change (emax - prec) with 971];
        lia.
    + rewrite iter_xO_pow, Z.opp_involutive. reflexivity.
    + rewrite iter_xO_pow, <- Z.mul_assoc, <- Z.pow_add_r by lia.
      f_equal. f_equal. lia.
Qed.

Local Close Scope Z_scope.

(** The product of a whole number below 2^43 and 1000 is below 2^53 and so
    is computed exactly. *)
Lemma mul_thousand_integer (q : float) (n : Z) :
  (0 <= n < 2 ^ 43)%Z ->
  ulps q = Some (n * 2 ^ 1074)%Z ->
  ulps (q * 1000) = Some (1000 * (n * 2 ^ 1074))%Z.
Proof.
  unfold ulps. intros Hn Hq.
  rewrite mul_spec, Prim2SF_thousand.
  assert (Hpow : (0 < 2 ^ 1074)%Z) by (apply Z.pow_pos_nonneg; lia).
  destruct (Prim2SF q) as [s|s| |s m e] eqn:Hx; try discriminate.
  - apply Some_eq in Hq. cbn [SF64mul SFmul].
    f_equal. rewrite <- Hq. reflexivity.
  - pose proof (Prim2SF_bounded q s m e Hx) as Hb.
    pose proof (ulps_finite_pos m e Hb) as Hpos.
    pose proof (bounded_canonical m e Hb) as [Hc He].
    pose proof (digits2_bounds m) as [Hm1 _].
    apply Some_eq in Hq.
    assert (Hs : s = false).
    { destruct s; [|reflexivity]. cbn [cond_Zopp] in Hq.
      assert (0 <= n * 2 ^ 1074)%Z by (apply Z.mul_nonneg_nonneg; lia). lia. }
    subst s. cbn [cond_Zopp] in Hq.
    assert (Hn0 : (0 < n)%Z).
    { destruct (Z.eq_dec n 0%Z) as [->|]; [|lia].
      rewrite Z.mul_0_l in Hq. lia. }
    destruct n as [|N|N]; try lia.
    (* the exponent of an integer below 2^43 is at most -10 *)
    assert (He10 : (e <= -10)%Z).
    { set (dm := Zpos (digits2_pos m)) in *.
      assert (Hdm : (0 < dm)%Z) by (subst dm; lia).
      assert (Hlt : (2 ^ (dm - 1 + (e + 1074)) < 2 ^ (43 + 1074))%Z).
      { rewrite Z.pow_add_r by lia. rewrite (Z.pow_add_r 2 43) by lia.
        assert (H1 : (2 ^ (dm - 1) * 2 ^ (e + 1074)
                      <= Zpos m * 2 ^ (e + 1074))%Z)
          by (apply Z.mul_le_mono_nonneg_r; [apply Z.pow_nonneg|]; lia).
        assert (H2 : (Zpos N * 2 ^ 1074 < 2 ^ 43 * 2 ^ 1074)%Z)
          by (apply Z.mul_lt_mono_pos_r; lia).
        lia. }
      apply pow2_lt_inv in Hlt; lia. }
    (* and at least -52, the integer being at least 1 *)
    assert (He52 : (-52 <= e)%Z).
    { pose proof (digits2_bounds m) as [_ Hm2].
      set (dm := Zpos (digits2_pos m)) in *.
      assert (Hlt : (2 ^ 1074 < 2 ^ (53 + (e + 1074)))%Z).
      { rewrite Z.pow_add_r by lia.
        assert (H1 : (Zpos m * 2 ^ (e + 1074) < 2 ^ 53 * 2 ^ (e + 1074))%Z).
        { apply Z.mul_lt_mono_pos_r; [apply Z.pow_pos_nonneg; lia|].
          apply Z.lt_le_trans with (2 ^ dm)%Z; [exact Hm2|].
          apply Z.pow_le_mono_r; lia. }
        assert (H2 : (1 * 2 ^ 1074 <= Zpos N * 2 ^ 1074)%Z)
          by (apply Z.mul_le_mono_nonneg_r; lia).
        lia. }
      apply pow2_lt_inv in Hlt; lia. }
    destruct (canonical_of_integer (1000 * N))
      as (M & E & HbM & HE & _ & _ & HM).
    { change (2 ^ 53)%Z with (1024 * 2 ^ 43)%Z. lia. }
    assert (Hmul : SF64mul (S754_finite false m e)
                     (S754_finite false 8796093022208000 (-43))
                   = S754_finite false M E).
    { unfold SF64mul, SFmul. cbn [xorb].
      apply binary_round_aux_exact; [exact HbM|lia|].
      assert (HK : (0 < 2 ^ (e + -43 + 1074))%Z)
        by (apply Z.pow_pos_nonneg; lia).
      apply (Z.mul_cancel_r _ _ (2 ^ (e + -43 + 1074))%Z); [lia|].
      rewrite <- (Z.mul_assoc (Zpos M)), <- Z.pow_add_r by lia.
      replace (E - (e + -43) + (e + -43 + 1074))%Z with (E + 1074)%Z by lia.
      rewrite HM.
      rewrite Pos2Z.inj_mul, (Pos2Z.inj_mul 1000 N).
      change (Zpos 8796093022208000) with (1000 * 2 ^ 43)%Z.
      replace (e + 1074)%Z with (43 + (e + -43 + 1074))%Z in Hq by lia.
      rewrite Z.pow_add_r in Hq by lia.
      remember (2 ^ (e + -43 + 1074))%Z as K. remember (2 ^ 1074)%Z as T.
      change (Zpos 1000) with 1000%Z. nia. }
    rewrite Hmul. cbn [cond_Zopp]. f_equal.
    rewrite HM, Pos2Z.inj_mul. lia.
Qed.

(** The literal [n] denotes the whole number [n]. *)
Lemma ulps_float_of_Z (n : Z) :
  (0 <= n < 2 ^ 53)%Z -> ulps (float_of_Z n) = Some (n * 2 ^ 1074)%Z.
Proof.
  intros Hn. destruct n as [|N|N]; [reflexivity| |lia].
  unfold ulps, float_of_Z.
  rewrite of_uint63_spec, Uint63.of_Z_spec.
  rewrite Z.mod_small by (change Uint63.wB with (2 ^ 63)%Z;
                          assert (2 ^ 53 < 2 ^ 63)%Z by reflexivity; lia).
  destruct (canonical_of_integer N (proj2 Hn))
    as (M & E & HbM & HE & HEd & HMN & HM).
  assert (Hnorm : binary_normalize prec emax (Zpos N) 0 false
                  = S754_finite false M E).
  { unfold binary_normalize, binary_round.
    destruct (shl_align N 0 _) as [mz ez] eqn:Hal.
    unfold shl_align in Hal. rewrite fexp64 in Hal.
    destruct (Z.max (Zpos (digits2_pos N) + 0 - 53) (-1074) - 0)%Z
      as [|k|k] eqn:Hk;
      pose proof (f_equal fst Hal) as Hmz;
      pose proof (f_equal snd Hal) as Hez;
      cbn [fst snd] in Hmz, Hez; subst mz ez.
    - apply binary_round_aux_exact; [exact HbM|lia|].
      replace (E - 0)%Z with 0%Z by lia.
      replace (- E)%Z with 0%Z in HMN by lia. lia.
    - lia.
    - apply binary_round_aux_exact; [exact HbM|lia|].
      replace (E - _)%Z with 0%Z by lia.
      rewrite iter_xO_pow, HMN. replace (- E)%Z with (Zpos k) by lia. lia. }
  rewrite Hnorm. cbn [cond_Zopp]. f_equal. exact HM.
Qed.

(** *** Sums of values that are not negative *)

Local Open Scope Z_scope.

Lemma shr_1_nonneg (mrs : shr_record) :
  0 <= shr_m mrs -> 0 <= shr_m (shr_1 mrs).
Proof.
  destruct mrs as [m r s]. cbn [shr_m]. intros Hm.
  destruct m as [|p|p]; [cbn; lia| |lia].
  destruct p; cbn; lia.
Qed.

Lemma iter_shr_1_nonneg (p : positive) (mrs : shr_record) :
  0 <= shr_m mrs -> 0 <= shr_m (SpecFloat.iter_pos shr_1 p mrs).
Proof.
  rewrite iter_pos_iter. intros Hm.
  apply (Pos.iter_invariant p _ shr_1 (fun r => 0 <= shr_m r));
    [|exact Hm].
  intros x Hx. apply shr_1_nonneg. exact Hx.
Qed.

Lemma shr_fexp_nonneg (m e : Z) (l : location) :
  0 <= m -> 0 <= shr_m (fst (shr_fexp prec emax m e l)).
Proof.
  intros Hm. unfold shr_fexp, shr.
  assert (H0 : 0 <= shr_m (shr_record_of_loc m l)).
  { unfold shr_record_of_loc. destruct l as [|[]]; cbn; exact Hm. }
  destruct (fexp prec emax (Zdigits2 m + e) - e); cbn [fst]; try exact H0.
  apply iter_shr_1_nonneg. exact H0.
Qed.

(** Rounding a mantissa that is not negative, with the sign of a positive
    number, gives [+0], a positive number or [+infinity], never NaN. *)
Lemma binary_round_aux_nonneg (mx ex : Z) (lx : location) :
  0 <= mx ->
  SFleb (S754_zero false) (binary_round_aux prec emax false mx ex lx) = true.
Proof.
  intros Hm. unfold binary_round_aux.
  pose proof (shr_fexp_nonneg mx ex lx Hm) as H1.
  destruct (shr_fexp prec emax mx ex lx) as [mrs' e']. cbn [fst] in H1.
  set (m1 := round_nearest_even _ _).
  assert (Hm1 : 0 <= m1).
  { subst m1. unfold round_nearest_even.
    destruct (loc_of_shr_record mrs') as [|[]]; try lia.
    destruct (Z.even (shr_m mrs')); lia. }
  pose proof (shr_fexp_nonneg m1 e' loc_Exact Hm1) as H2.
  destruct (shr_fexp prec emax m1 e' loc_Exact) as [mrs'' e''].
  cbn [fst] in H2.
  destruct (shr_m mrs'') as [|p|p]; [reflexivity| |lia].
  destruct (e'' <=? emax - prec); reflexivity.
Qed.

Local Open Scope float_scope.

(** The sum of two values that are ≥ 0 is ≥ 0 (it may be [+infinity]). *)
Lemma add_nonneg (x y : float) :
  (0 <=? x) = true -> (0 <=? y) = true -> (0 <=? x + y) = true.
Proof.
  rewrite !leb_spec, add_spec.
  change (Prim2SF 0) with (S754_zero false).
  destruct (Prim2SF x) as [sx|sx| |sx mx ex],
           (Prim2SF y) as [sy|sy| |sy my ey];
    try discriminate;
    try (destruct sx; try discriminate);
    try (destruct sy; try discriminate);
    intros _ _; try reflexivity.
  cbn [SF64add SFadd cond_Zopp].
  set (ez := Z.min ex ey).
  destruct (shl_align mx ex ez) as [mx' ex'].
  destruct (shl_align my ey ez) as [my' ey']. cbn [fst].
  change (Z.pos mx' + Z.pos my')%Z with (Z.pos (mx' + my')).
  cbn [binary_normalize]. unfold binary_round.
  destruct (shl_align (mx' + my') ez _) as [mz ez'].
  apply binary_round_aux_nonneg. lia.
Qed.

(** A value that is ≥ 0 is not NaN. *)
Lemma nonneg_not_NaN (x : float) : (0 <=? x) = true -> isNaN x = false.
Proof.
  rewrite leb_spec. unfold isNaN.
  destruct (Prim2SF x); try reflexivity. discriminate.
Qed.

(** A quotient by [0] or [-0] is infinite or NaN. *)
Lemma div_zero_not_finite (x b : float) :
  (b =? 0) = true -> isFinite (x / b) = false.
Proof.
  rewrite FloatAxioms.eqb_spec. unfold isFinite. rewrite div_spec.
  change (Prim2SF 0) with (S754_zero false).
  destruct (Prim2SF b) as [sb|sb| |sb mb eb]; try discriminate.
  - intros _. destruct (Prim2SF x); reflexivity.
  - destruct sb; discriminate.
  - destruct sb; discriminate.
Qed.

End B64Facts.
(** ** Facts about the exact reading, over the rationals *)

Module ExactFacts.
Local Open Scope Q_scope.

Lemma gtb_lt (x y : Q) : gtb x y = true <-> y < x.
Proof.
  cbn. rewrite negb_true_iff. split.
  - intros Hb. apply Qnot_le_lt. intros Hle.
    apply Qle_bool_iff in Hle. congruence.
  - intros Hlt. destruct (Qle_bool x y) eqn:Hb; [|reflexivity].
    apply Qle_bool_iff in Hb. exfalso. exact (Qlt_not_le _ _ Hlt Hb).
Qed.

Lemma gtb_zero (x : Q) : 0 < x -> gtb x (lit 0) = true.
Proof.
  intros Hx. change (lit 0) with 0. apply (proj2 (gtb_lt x 0)). exact Hx.
Qed.

(** Multiplying and then dividing by 1000 is the identity. *)
Lemma roundtrip (q : Q) (u : Unit) :
  convertFromBaseUnit (convertToBaseUnit q u) u == q.
Proof.
  destruct u; cbn; try reflexivity; field.
Qed.

(** The margin on price of a marked-up price. *)
Lemma margin_of_markup (u t : Q) :
  0 < t -> 0 < u * (1 + t / 100) ->
  (u * (1 + t / 100) - u) / (u * (1 + t / 100)) * 100 == t / (1 + t / 100)
  /\ t / (1 + t / 100) < t.
Proof.
  intros Ht Hrp.
  assert (H100 : 0 < t / 100) by (apply Qlt_shift_div_l; lra).
  assert (Hden : 0 < 1 + t / 100) by lra.
  assert (Hu : ~ u == 0) by (intros Hz; rewrite Hz in Hrp; lra).
  split.
  - field. split; [lra|exact Hu].
  - apply Qlt_shift_div_r; [exact Hden|]. nra.
Qed.

End ExactFacts.

(** ** The claims

    Unless a statement says otherwise, numbers are binary64 and the
    theorems are about the functions as the program runs them. *)

Section Claims.
Import Inputs.
Local Open Scope float_scope.

Implicit Types (material : RawMaterialRecord float)
               (requirement : ProductMaterialInput float)
               (product : ProductRecord float)
               (rawMaterials : list (RawMaterialRecord float)).

(** C1: on the scenario of the specification (500 g of a material bought at
    1000 for 1 kg, batch size 10, labor 200, additional 50, margin 40)
    [calculateProductCosts] returns totalMaterialCost = 500, totalCost = 750,
    unitCost = 75 and recommendedPrice = 105, and
    [getMaterialDerivedValues] gives pricePerKilogram = 1000 and
    pricePerGram = 1, all computed in binary64. *)
Theorem scenario_costs :
  let r := calculateProductCosts Scenario.soap [Scenario.soapBase] in
  let d := getMaterialDerivedValues Scenario.soapBase in
  totalMaterialCost r = 500 /\
  totalCost r = 750 /\
  unitCost r = 75 /\
  recommendedPrice r = 105 /\
  pricePerKilogram d = Some 1000 /\
  pricePerGram d = Some 1.
Proof. vm_compute. repeat split; reflexivity. Qed.

(** C2: [calculateProductCosts] sets recommendedPrice to
    unitCost × (1 + targetMargin/100) when targetMargin > 0 and to unitCost
    when targetMargin ≤ 0 (and also when targetMargin is NaN); this is the
    cost-plus markup of the specification and not its margin-on-price
    formula, which on the scenario would give another price. *)
Theorem recommendedPrice_markup product rawMaterials :
  let r := calculateProductCosts product rawMaterials in
  recommendedPrice r
  = (if 0 <? targetMargin product
     then costPlusMarkup (unitCost r) (targetMargin product)
     else unitCost r)
  /\ ((0 <? targetMargin product) = true ->
      recommendedPrice r = unitCost r * (1 + targetMargin product / 100))
  /\ ((targetMargin product <=? 0) = true -> recommendedPrice r = unitCost r)
  /\ (let s := calculateProductCosts Scenario.soap [Scenario.soapBase] in
      recommendedPrice s = 105
      /\ marginOnPrice (unitCost s) (targetMargin Scenario.soap) = 125
      /\ (recommendedPrice s
          =? marginOnPrice (unitCost s) (targetMargin Scenario.soap)) = false).
Proof.
  intros r.
  assert (Hdef : recommendedPrice r
                 = (if 0 <? targetMargin product
                    then costPlusMarkup (unitCost r) (targetMargin product)
                    else unitCost r)) by reflexivity.
  split; [exact Hdef|].
  split; [|split].
  - intros Hpos. rewrite Hdef, Hpos. reflexivity.
  - intros Hle. rewrite Hdef, (B64Facts.leb_gtb_false _ _ Hle). reflexivity.
  - vm_compute. repeat split; reflexivity.
Qed.

Lemma recommendedPrice_markup_witness :
  recommendedPrice (calculateProductCosts Scenario.soap [Scenario.soapBase])
  = unitCost (calculateProductCosts Scenario.soap [Scenario.soapBase])
    * (1 + 40 / 100)
  /\ recommendedPrice (calculateProductCosts orphan []) = 7.
Proof.
  split.
  - exact (proj1 (proj2 (recommendedPrice_markup Scenario.soap
                           [Scenario.soapBase])) eq_refl).
  - exact (proj1 (proj2 (proj2 (recommendedPrice_markup orphan [])))
             eq_refl).
Defined.

(** C3, as stated, fails: the product [thinMargin] has no override price,
    unit cost 75 and target margin 1e-7; its recommended price is
    75.000000075, and the displayed margin, computed from the rounded
    difference between price and cost, is 1.0000000343708552e-07, which is
    larger than the target margin. *)
Lemma thin_margin_exceeds_target :
  let p := productWithDerived [Scenario.soapBase] thinMargin in
  overrideSalePrice thinMargin = None
  /\ (0 <? targetMargin thinMargin) = true
  /\ unitCost (costs p) = 75
  /\ recommendedPrice (costs p) = 75.000000075
  /\ (0 <? recommendedPrice (costs p)) = true
  /\ margin p = 1.0000000343708552e-07
  /\ (margin p <? targetMargin thinMargin) = false.
Proof. vm_compute. repeat split; reflexivity. Qed.

(** Membership in [upTo]. *)
Lemma in_upTo (n : nat) (z : Z) :
  (1 <= z <= Z.of_nat n)%Z -> In z (upTo n).
Proof.
  intros Hz. unfold upTo. apply in_map_iff.
  exists (Z.to_nat z). split; [lia|]. apply in_seq. lia.
Qed.

(** Checked by evaluation, on the 100 000 products concerned. *)
Lemma whole_margins_below_target :
  forallb (fun u => forallb (marginBelowTarget u) (upTo 1000)) (upTo 100)
  = true.
Proof. vm_compute. reflexivity. Qed.

(** C3, amended: for every product with no overrideSalePrice the displayed
    margin is ((recommendedPrice − unitCost) ÷ recommendedPrice) × 100 when
    recommendedPrice > 0 and 0 otherwise.  In exact rational arithmetic, with
    targetMargin > 0 and recommendedPrice > 0, this is
    targetMargin ÷ (1 + targetMargin/100), strictly smaller than
    targetMargin; in binary64 it is strictly smaller than targetMargin on the
    scenario of the specification (target 40, displayed 28.57...) and for
    every whole-number unit cost from 1 to 100 with every whole-number target
    margin from 1 to 1000, but rounding can make the displayed margin exceed
    a small target margin. *)
Theorem displayed_margin :
  (forall product rawMaterials, overrideSalePrice product = None ->
     let r := calculateProductCosts product rawMaterials in
     derivedSalePrice (productWithDerived rawMaterials product)
     = recommendedPrice r
     /\ margin (productWithDerived rawMaterials product)
        = (if 0 <? recommendedPrice r
           then (recommendedPrice r - unitCost r) / recommendedPrice r * 100
           else 0))
  /\ (forall (p : ProductRecord Q) (ms : list (RawMaterialRecord Q)),
        overrideSalePrice p = None ->
        let r := calculateProductCosts p ms in
        (0 < targetMargin p)%Q -> (0 < recommendedPrice r)%Q ->
        (margin (productWithDerived ms p)
         == targetMargin p / (1 + targetMargin p / 100))%Q
        /\ (margin (productWithDerived ms p) < targetMargin p)%Q)
  /\ (margin (productWithDerived [Scenario.soapBase] Scenario.soap)
      = 28.57142857142857
      /\ (margin (productWithDerived [Scenario.soapBase] Scenario.soap)
          <? targetMargin Scenario.soap) = true)
  /\ (forall u t : Z, (1 <= u <= 100)%Z -> (1 <= t <= 1000)%Z ->
        (margin (productWithDerived [] (wholeProduct u t))
         <? targetMargin (wholeProduct u t)) = true).
Proof.
  split; [|split; [|split]].
  - intros product rawMaterials Hov r.
    unfold productWithDerived. cbn [derivedSalePrice margin].
    rewrite Hov. split; reflexivity.
  - intros p ms Hov r Ht Hrp.
    assert (Hprice : recommendedPrice r
                     = (unitCost r * (1 + targetMargin p / 100))%Q).
    { subst r. unfold calculateProductCosts. cbn [recommendedPrice unitCost].
      rewrite (ExactFacts.gtb_zero _ Ht).
      reflexivity. }
    assert (Hmargin : margin (productWithDerived ms p)
                      = ((recommendedPrice r - unitCost r)
                         / recommendedPrice r * 100)%Q).
    { unfold productWithDerived. cbn [margin]. rewrite Hov. cbn [default].
      fold r.
      rewrite (ExactFacts.gtb_zero _ Hrp).
      reflexivity. }
    rewrite Hmargin, Hprice. rewrite Hprice in Hrp.
    destruct (ExactFacts.margin_of_markup _ _ Ht Hrp) as [Heq Hlt].
    split; [exact Heq|]. rewrite Heq. exact Hlt.
  - vm_compute. split; reflexivity.
  - intros u t Hu Ht.
    exact (proj1 (forallb_forall _ _)
             (proj1 (forallb_forall _ _) whole_margins_below_target u
                (in_upTo 100 u Hu))
             t (in_upTo 1000 t Ht)).
Qed.

Lemma displayed_margin_witness :
  margin (productWithDerived [Scenario.soapBase] Scenario.soap)
  = (105 - 75) / 105 * 100.
Proof.
  exact (proj2 (proj1 displayed_margin Scenario.soap [Scenario.soapBase]
                  eq_refl)).
Defined.

(** C4: [getProductMaterialCost] returns cost 0, valid false and a warning
    exactly when the material is absent or the unit system of the requirement
    differs from that of the material's purchase unit; in every other case it
    returns valid true, no warning and
    cost = pricePerBaseUnit × (requirement quantity in base units), whatever
    the quantities are.  The function is total: every input has a result. *)
Theorem getProductMaterialCost_cases
    (om : option (RawMaterialRecord float)) requirement :
  let r := getProductMaterialCost om requirement in
  let mismatch :=
    om = None \/
    exists material, om = Some material /\
      getUnitSystem (purchaseUnit material)
      <> getUnitSystem (unit requirement) in
  (mismatch <-> valid r = false)
  /\ (mismatch -> cost r = 0 /\ valid r = false /\ is_Some (warning r))
  /\ (om = None ->
      r = {| cost := 0; valid := false; warning := Some warning_not_found |})
  /\ (forall material, om = Some material ->
      getUnitSystem (purchaseUnit material)
      <> getUnitSystem (unit requirement) ->
      r = {| cost := 0; valid := false;
             warning := Some warning_incompatible |})
  /\ (forall material, om = Some material ->
      getUnitSystem (purchaseUnit material)
      = getUnitSystem (unit requirement) ->
      r = {| cost := pricePerBaseUnit (getMaterialDerivedValues material)
                     * convertToBaseUnit (quantity requirement)
                                         (unit requirement);
             valid := true; warning := None |}).
Proof.
  intros r mismatch.
  assert (Hval : mismatch <-> valid r = false).
  { subst r mismatch. rewrite getProductMaterialCost_valid.
    destruct om as [material|].
    - rewrite bool_decide_eq_false. split.
      + intros [Habs|(m & Hm & Hd)]; [discriminate|].
        injection Hm as <-. exact Hd.
      + intros Hd. right. exists material. split; [reflexivity|exact Hd].
    - split; [reflexivity|]. intros _. left. reflexivity. }
  split; [exact Hval|].
  split.
  { intros Hm. apply Hval in Hm. subst r.
    split; [exact (invalid_cost_zero _ _ Hm)|].
    split; [exact Hm|exact (invalid_has_warning _ _ Hm)]. }
  split.
  { intros ->. reflexivity. }
  split.
  - intros material -> Hne. subst r.
    exact (getProductMaterialCost_incompatible _ _ Hne).
  - intros material -> He. subst r.
    exact (getProductMaterialCost_compatible _ _ He).
Qed.

(** A running sum that only meets zero costs stays at zero. *)
Lemma fold_zero_costs (lines : list (BreakdownLine float)) :
  (forall item, In item lines -> line_cost item = 0) ->
  fold_left (fun sum item => sum + line_cost item) lines 0 = 0.
Proof.
  induction lines as [|item lines IH]; intros Hz; [reflexivity|].
  cbn [fold_left]. rewrite (Hz item) by (left; reflexivity).
  change (0 + 0) with 0. apply IH. intros it Hin. apply Hz. right. exact Hin.
Qed.

Lemma breakdownLine_invalid_cost dict requirement :
  line_valid (breakdownLine dict requirement) = false ->
  line_cost (breakdownLine dict requirement) = 0.
Proof.
  exact (invalid_cost_zero (dict !! materialId requirement) requirement).
Qed.

(** C5: [calculateProductCosts] returns totalMaterialCost = the sum, from
    left to right and starting at 0, of the cost fields of all breakdown
    lines; an invalid line has cost exactly 0, so it leaves the running sum
    as it is (a running sum of -0 becomes +0) and a breakdown of invalid
    lines only sums to 0; totalCost = totalMaterialCost + laborCost +
    additionalCost; and the breakdown has one line per element of
    product.materials, in the same order. *)
Theorem totals_and_breakdown product rawMaterials :
  let r := calculateProductCosts product rawMaterials in
  totalMaterialCost r
  = fold_left (fun sum item => sum + line_cost item) (breakdown r) 0
  /\ totalCost r
     = totalMaterialCost r + laborCost product + additionalCost product
  /\ breakdown r
     = map (breakdownLine (materialDictionary rawMaterials))
           (materials product)
  /\ map line_materialId (breakdown r) = map materialId (materials product)
  /\ map line_quantity (breakdown r) = map quantity (materials product)
  /\ map line_unit (breakdown r) = map unit (materials product)
  /\ (forall item, In item (breakdown r) -> line_valid item = false ->
      line_cost item = 0
      /\ forall sum, sum + line_cost item = sum
                     \/ (sum = (-0) /\ sum + line_cost item = 0))
  /\ ((forall item, In item (breakdown r) -> line_valid item = false) ->
      totalMaterialCost r = 0).
Proof.
  intros r.
  assert (Hinv : forall item, In item (breakdown r) ->
                   line_valid item = false -> line_cost item = 0).
  { intros item Hin Hv. apply in_map_iff in Hin as (req & <- & _).
    apply breakdownLine_invalid_cost. exact Hv. }
  split; [reflexivity|].
  split; [reflexivity|].
  split; [reflexivity|].
  split; [subst r; cbn; rewrite map_map; reflexivity|].
  split; [subst r; cbn; rewrite map_map; reflexivity|].
  split; [subst r; cbn; rewrite map_map; reflexivity|].
  split.
  - intros item Hin Hv. rewrite (Hinv item Hin Hv).
    split; [reflexivity|]. intros sum. apply B64Facts.add_zero_r.
  - intros Hall. apply fold_zero_costs.
    intros item Hin. apply Hinv; [exact Hin|]. apply Hall. exact Hin.
Qed.

Lemma totals_and_breakdown_witness :
  totalMaterialCost (calculateProductCosts orphan [Scenario.soapBase]) = 0.
Proof.
  refine (proj2 (proj2 (proj2 (proj2 (proj2 (proj2 (proj2
            (totals_and_breakdown orphan [Scenario.soapBase]))))))) _).
  intros item [<-|[]]. reflexivity.
Defined.

(** C6, as stated, fails: the product [zeroBatchHuge] has batch size 0 and
    all its inputs and those of the material [emptyStock] are finite; its
    unitCost equals its totalCost, and both are NaN. *)
Lemma zero_batch_unit_cost_nan :
  (batchSize zeroBatchHuge =? 0) = true
  /\ forallb B64.isFinite
       [ purchasePrice emptyStock; purchaseQuantity emptyStock;
         quantity hugeRequirement; batchSize zeroBatchHuge;
         laborCost zeroBatchHuge; additionalCost zeroBatchHuge;
         targetMargin zeroBatchHuge ] = true
  /\ unitCost (calculateProductCosts zeroBatchHuge [emptyStock])
     = totalCost (calculateProductCosts zeroBatchHuge [emptyStock])
  /\ B64.isNaN (unitCost (calculateProductCosts zeroBatchHuge [emptyStock]))
     = true.
Proof. vm_compute. repeat split; reflexivity. Qed.

(** A running sum of costs that are ≥ 0 is ≥ 0. *)
Lemma fold_nonneg_costs (lines : list (BreakdownLine float)) (acc : float) :
  (0 <=? acc) = true ->
  (forall item, In item lines -> (0 <=? line_cost item) = true) ->
  (0 <=? fold_left (fun sum item => sum + line_cost item) lines acc) = true.
Proof.
  revert acc. induction lines as [|item lines IH]; intros acc Hacc Hall;
    [exact Hacc|].
  cbn [fold_left]. apply IH.
  - apply B64Facts.add_nonneg; [exact Hacc|]. apply Hall. left. reflexivity.
  - intros it Hin. apply Hall. right. exact Hin.
Qed.

(** C6, amended: [calculateProductCosts] sets unitCost = totalCost ÷
    batchSize when batchSize > 0 and unitCost = totalCost when
    batchSize ≤ 0.  With batchSize = 0 no division takes place (the quotient
    totalCost ÷ batchSize would be infinite or NaN) and unitCost is
    totalCost, so it is NaN exactly when totalCost is.  With batchSize ≤ 0,
    unitCost is ≥ 0, and so not NaN, whenever the cost of every breakdown
    line, laborCost and additionalCost are ≥ 0. *)
Theorem unitCost_guarded product rawMaterials :
  let r := calculateProductCosts product rawMaterials in
  ((0 <? batchSize product) = true ->
   unitCost r = totalCost r / batchSize product)
  /\ ((batchSize product <=? 0) = true -> unitCost r = totalCost r)
  /\ ((batchSize product =? 0) = true ->
      unitCost r = totalCost r
      /\ B64.isNaN (unitCost r) = B64.isNaN (totalCost r)
      /\ B64.isFinite (totalCost r / batchSize product) = false)
  /\ ((batchSize product <=? 0) = true ->
      (forall item, In item (breakdown r) ->
         (0 <=? line_cost item) = true) ->
      (0 <=? laborCost product) = true ->
      (0 <=? additionalCost product) = true ->
      (0 <=? unitCost r) = true /\ B64.isNaN (unitCost r) = false).
Proof.
  intros r.
  assert (Hdef : unitCost r
                 = (if 0 <? batchSize product
                    then totalCost r / batchSize product
                    else totalCost r)) by reflexivity.
  split; [|split; [|split]].
  - intros Hpos. rewrite Hdef, Hpos. reflexivity.
  - intros Hle. rewrite Hdef, (B64Facts.leb_gtb_false _ _ Hle). reflexivity.
  - intros Hz.
    assert (Hu : unitCost r = totalCost r)
      by (rewrite Hdef, (B64Facts.eqb_gtb_false _ _ Hz); reflexivity).
    split; [exact Hu|]. split; [rewrite Hu; reflexivity|].
    apply B64Facts.div_zero_not_finite. exact Hz.
  - intros Hle Hlines Hlabor Hadd.
    assert (Hu : unitCost r = totalCost r)
      by (rewrite Hdef, (B64Facts.leb_gtb_false _ _ Hle); reflexivity).
    assert (Hpos : (0 <=? unitCost r) = true).
    { rewrite Hu.
      change (totalCost r)
        with (fold_left (fun sum item => sum + line_cost item)
                (breakdown r) 0
              + laborCost product + additionalCost product).
      apply B64Facts.add_nonneg; [|exact Hadd].
      apply B64Facts.add_nonneg; [|exact Hlabor].
      apply fold_nonneg_costs; [reflexivity|exact Hlines]. }
    split; [exact Hpos|]. apply B64Facts.nonneg_not_NaN. exact Hpos.
Qed.

Lemma unitCost_guarded_witness :
  unitCost (calculateProductCosts Scenario.soap [Scenario.soapBase])
  = totalCost (calculateProductCosts Scenario.soap [Scenario.soapBase]) / 10
  /\ unitCost (calculateProductCosts zeroBatch [Scenario.soapBase]) = 750
  /\ B64.isNaN (unitCost (calculateProductCosts zeroBatch [Scenario.soapBase]))
     = false.
Proof.
  split; [|split].
  - exact (proj1 (unitCost_guarded Scenario.soap [Scenario.soapBase]) eq_refl).
  - exact (proj1 (proj1 (proj2 (proj2 (unitCost_guarded zeroBatch
                                         [Scenario.soapBase]))) eq_refl)).
  - refine (proj2 (proj2 (proj2 (proj2 (unitCost_guarded zeroBatch
                                          [Scenario.soapBase])))
                     eq_refl _ eq_refl eq_refl)).
    intros item [<-|[]]. reflexivity.
Defined.

(** C7: [getMaterialDerivedValues] computes pricePerBaseUnit as
    purchasePrice ÷ baseQuantity when the purchase quantity converted to the
    base unit is > 0, and as 0 when it is ≤ 0; the function is total. *)
Theorem pricePerBaseUnit_guarded material :
  let d := getMaterialDerivedValues material in
  baseQuantity d
  = convertToBaseUnit (purchaseQuantity material) (purchaseUnit material)
  /\ ((0 <? baseQuantity d) = true ->
      pricePerBaseUnit d = purchasePrice material / baseQuantity d)
  /\ ((baseQuantity d <=? 0) = true -> pricePerBaseUnit d = 0).
Proof.
  intros d.
  assert (Hdef : pricePerBaseUnit d
                 = (if 0 <? baseQuantity d
                    then purchasePrice material / baseQuantity d
                    else 0)) by reflexivity.
  split; [reflexivity|]. split.
  - intros Hpos. rewrite Hdef, Hpos. reflexivity.
  - intros Hle. rewrite Hdef, (B64Facts.leb_gtb_false _ _ Hle). reflexivity.
Qed.

Lemma pricePerBaseUnit_guarded_witness :
  pricePerBaseUnit (getMaterialDerivedValues Scenario.soapBase) = 1000 / 1000
  /\ pricePerBaseUnit (getMaterialDerivedValues emptyStock) = 0.
Proof.
  split.
  - exact (proj1 (proj2 (pricePerBaseUnit_guarded Scenario.soapBase)) eq_refl).
  - exact (proj2 (proj2 (pricePerBaseUnit_guarded emptyStock)) eq_refl).
Defined.

(** C8: [getMaterialDerivedValues] fills in only the convenience prices of
    the material's own unit system: for mass pricePerGram = pricePerBaseUnit
    and pricePerKilogram = pricePerBaseUnit × 1000; for volume
    pricePerMilliliter = pricePerBaseUnit and pricePerLiter =
    pricePerBaseUnit × 1000; for count pricePerUnit = purchasePrice ÷
    purchaseQuantity when purchaseQuantity > 0 and absent otherwise.  Every
    convenience field of the other systems is absent ([None]), not zero. *)
Theorem convenience_prices material :
  let d := getMaterialDerivedValues material in
  unitSystem d = getUnitSystem (purchaseUnit material)
  /\ match unitSystem d with
     | Mass =>
         pricePerGram d = Some (pricePerBaseUnit d)
         /\ pricePerKilogram d = Some (pricePerBaseUnit d * 1000)
         /\ pricePerMilliliter d = None
         /\ pricePerLiter d = None
         /\ pricePerUnit d = None
     | Volume =>
         pricePerMilliliter d = Some (pricePerBaseUnit d)
         /\ pricePerLiter d = Some (pricePerBaseUnit d * 1000)
         /\ pricePerGram d = None
         /\ pricePerKilogram d = None
         /\ pricePerUnit d = None
     | SysUnit =>
         pricePerUnit d
         = (if 0 <? purchaseQuantity material
            then Some (purchasePrice material / purchaseQuantity material)
            else None)
         /\ pricePerGram d = None
         /\ pricePerKilogram d = None
         /\ pricePerMilliliter d = None
         /\ pricePerLiter d = None
     end.
Proof.
  intros d. split; [reflexivity|].
  subst d. unfold getMaterialDerivedValues.
  destruct (purchaseUnit material); cbn; repeat split; reflexivity.
Qed.

(** C9, as stated, fails: 2.8299 kilograms are converted to
    2829.8999999999996 grams (the product is rounded), and converting these
    back gives 2.8298999999999994, which is not 2.8299. *)
Lemma roundtrip_2_8299_kilograms :
  (0 <=? q2_8299) = true
  /\ convertToBaseUnit q2_8299 Ukg = 2829.8999999999996
  /\ convertFromBaseUnit (convertToBaseUnit q2_8299 Ukg) Ukg
     = 2.8298999999999994
  /\ (convertFromBaseUnit (convertToBaseUnit q2_8299 Ukg) Ukg =? q2_8299)
     = false.
Proof. vm_compute. repeat split; reflexivity. Qed.

(** C9, amended: for gram, milliliter and each both conversions are the
    identity, so the round trip returns q for every q; for kilogram and liter
    the round trip computes (q × 1000) ÷ 1000 in binary64, which returns q
    whenever the product q × 1000 is computed exactly (no rounding, no
    overflow), whatever the sign of q: in particular for every whole number
    q with 0 ≤ q < 2^43.  It need not return q otherwise.  In exact rational
    arithmetic the round trip returns q for every q and every unit. *)
Theorem roundtrip_units :
  (forall (q : float) (u : Unit), u = Ug \/ u = Uml \/ u = Uunit ->
     convertToBaseUnit q u = q /\ convertFromBaseUnit q u = q
     /\ convertFromBaseUnit (convertToBaseUnit q u) u = q)
  /\ (forall (q : float) (u : Unit), u = Ukg \/ u = Ul ->
        convertFromBaseUnit (convertToBaseUnit q u) u = q * 1000 / 1000)
  /\ (forall (q : float) (u : Unit), B64.exactTimesThousand q ->
        convertFromBaseUnit (convertToBaseUnit q u) u = q)
  /\ (forall (n : Z) (u : Unit), (0 <= n < 2 ^ 43)%Z ->
        convertFromBaseUnit (convertToBaseUnit (lit n : float) u) u = lit n)
  /\ (forall (q : Q) (u : Unit),
        (convertFromBaseUnit (convertToBaseUnit q u) u == q)%Q).
Proof.
  assert (Hexact : forall (q : float) (u : Unit), B64.exactTimesThousand q ->
            convertFromBaseUnit (convertToBaseUnit q u) u = q).
  { intros q u (n & Hq & Hp).
    destruct u; try reflexivity;
      exact (B64Facts.mul_div_thousand_exact q n Hq Hp). }
  split; [|split; [|split; [|split]]].
  - intros q u [->|[->| ->]]; repeat split; reflexivity.
  - intros q u [->| ->]; reflexivity.
  - exact Hexact.
  - intros n u Hn. apply Hexact.
    exists (n * 2 ^ 1074)%Z.
    assert (Hlit : B64.ulps (lit n : float) = Some (n * 2 ^ 1074)%Z).
    { apply B64Facts.ulps_float_of_Z.
      assert (2 ^ 43 < 2 ^ 53)%Z by reflexivity. lia. }
    split; [exact Hlit|].
    exact (B64Facts.mul_thousand_integer _ n Hn Hlit).
  - exact ExactFacts.roundtrip.
Qed.

Lemma roundtrip_units_witness :
  convertFromBaseUnit (convertToBaseUnit 2.5 Ukg) Ukg = 2.5
  /\ convertFromBaseUnit (convertToBaseUnit 2.5 Ug) Ug = 2.5
  /\ convertFromBaseUnit (convertToBaseUnit 12 Ul) Ul = 12.
Proof.
  split; [|split].
  - apply (proj1 (proj2 (proj2 roundtrip_units)) 2.5 Ukg).
    exists (5 * 2 ^ 1073)%Z. split; vm_compute; reflexivity.
  - apply (proj1 roundtrip_units 2.5 Ug). left. reflexivity.
  - apply (proj1 (proj2 (proj2 (proj2 roundtrip_units))) 12%Z Ul).
    split; [lia|reflexivity].
Defined.

(** C10, as stated, fails: the material [emptyStock] has purchase quantity
    0 kilograms, and the requirement of 1e306 kilograms is in the same unit
    system; its base quantity overflows to infinity and the cost 0 × infinity
    is NaN, not 0. *)
Lemma huge_requirement_cost_nan :
  (purchaseQuantity emptyStock <=? 0) = true
  /\ getUnitSystem (purchaseUnit emptyStock)
     = getUnitSystem (unit hugeRequirement)
  /\ convertToBaseUnit (quantity hugeRequirement) (unit hugeRequirement)
     = infinity
  /\ B64.isNaN (cost (getProductMaterialCost (Some emptyStock)
                        hugeRequirement)) = true
  /\ (cost (getProductMaterialCost (Some emptyStock) hugeRequirement) =? 0)
     = false.
Proof. vm_compute. repeat split; reflexivity. Qed.

(** A purchase quantity that is ≤ 0 has a base quantity that is not > 0. *)
Lemma nonpositive_baseQuantity (q : float) (u : Unit) :
  (q <=? 0) = true -> (0 <? convertToBaseUnit q u) = false.
Proof.
  intros Hle.
  destruct u; cbn;
    first [ exact (B64Facts.leb_gtb_false _ _ Hle)
          | exact (B64Facts.mul_thousand_nonpos q Hle) ].
Qed.

(** C10, amended: for a material with purchaseQuantity ≤ 0 and a requirement
    in the same unit system, [getProductMaterialCost] returns valid = true
    and no warning, pricePerBaseUnit is 0 and the cost is 0 × (requirement
    quantity in base units): this is 0 whenever that base quantity is finite,
    and NaN when it is infinite or NaN. *)
Theorem nonpositive_purchase_quantity material requirement :
  (purchaseQuantity material <=? 0) = true ->
  getUnitSystem (purchaseUnit material) = getUnitSystem (unit requirement) ->
  let r := getProductMaterialCost (Some material) requirement in
  let base :=
    convertToBaseUnit (quantity requirement) (unit requirement) in
  valid r = true
  /\ warning r = None
  /\ pricePerBaseUnit (getMaterialDerivedValues material) = 0
  /\ cost r = 0 * base
  /\ (B64.isFinite base = true -> (cost r =? 0) = true)
  /\ (B64.isFinite base = false -> B64.isNaN (cost r) = true).
Proof.
  intros Hle Hsys r base.
  assert (Hprice : pricePerBaseUnit (getMaterialDerivedValues material) = 0).
  { unfold getMaterialDerivedValues. cbn [pricePerBaseUnit].
    change (gtb ?x (lit 0)) with (0 <? x).
    rewrite (nonpositive_baseQuantity _ _ Hle). reflexivity. }
  assert (Hr : r = {| cost := 0 * base; valid := true; warning := None |}).
  { subst r. rewrite (getProductMaterialCost_compatible _ _ Hsys).
    rewrite Hprice. reflexivity. }
  rewrite Hr. cbn [cost valid warning].
  repeat split; try exact Hprice.
  - exact (B64Facts.mul_zero_finite base).
  - exact (B64Facts.mul_zero_not_finite base).
Qed.

Lemma nonpositive_purchase_quantity_witness :
  valid (getProductMaterialCost (Some emptyStock) twoKilograms) = true
  /\ (cost (getProductMaterialCost (Some emptyStock) twoKilograms) =? 0)
     = true.
Proof.
  pose proof (nonpositive_purchase_quantity emptyStock twoKilograms
                eq_refl eq_refl) as (Hv & _ & _ & _ & Hfin & _).
  split; [exact Hv|]. apply Hfin. reflexivity.
Defined.

End Claims.

(** * Further properties

    Properties of the functions above that the claims leave out, and of the
    form and statistics code of [src/app/page.tsx]. *)

(** ** More facts about binary64 arithmetic *)

Module B64Division.
Import B64 B64Facts.
Local Open Scope Z_scope.

(** If the dividend is exactly the product of a binary64 value and the
    divisor, the quotient is that value. Values are compared scaled by
    2^2148. *)
Lemma SFdiv_exact (s sy : bool) (m : positive) (e : Z)
    (mp : positive) (ep : Z) (my : positive) (ey : Z) :
  bounded prec emax m e = true ->
  bounded prec emax mp ep = true ->
  bounded prec emax my ey = true ->
  Zpos mp * 2 ^ (ep + 1074) * 2 ^ 1074
  = (Zpos m * 2 ^ (e + 1074)) * (Zpos my * 2 ^ (ey + 1074)) ->
  SF64div (S754_finite (xorb s sy) mp ep) (S754_finite sy my ey)
  = S754_finite s m e.
Proof.
  intros Hb Hbp Hby Hval.
  pose proof (bounded_canonical m e Hb) as [Hc He].
  pose proof (bounded_canonical mp ep Hbp) as [Hcp Hep].
  pose proof (bounded_canonical my ey Hby) as [Hcy Hey].
  pose proof (digits2_bounds m) as [Hm1 Hm2].
  pose proof (digits2_bounds mp) as [Hp1 Hp2].
  pose proof (digits2_bounds my) as [Hy1 Hy2].
  set (dm := Zpos (digits2_pos m)) in *.
  set (dp := Zpos (digits2_pos mp)) in *.
  set (dy := Zpos (digits2_pos my)) in *.
  assert (Hdm : 0 < dm) by (subst dm; lia).
  assert (Hdp : 0 < dp) by (subst dp; lia).
  assert (Hdy : 0 < dy) by (subst dy; lia).
  set (e' := Z.min (Z.max (dp + ep - (dy + ey) - 53) (-1074)) (ep - ey)).
  assert (Hdigits : dp + ep - (dy + ey) <= dm + e).
  { assert (Hlt : 2 ^ (dp - 1 + (ep + 1074) + 1074)
                  < 2 ^ (dm + (e + 1074) + (dy + (ey + 1074)))).
    { rewrite (Z.pow_add_r 2 (dp - 1 + (ep + 1074))),
        (Z.pow_add_r 2 (dp - 1)), (Z.pow_add_r 2 (dm + (e + 1074))),
        (Z.pow_add_r 2 dm), (Z.pow_add_r 2 dy) by lia.
      assert (HP : 0 < 2 ^ (ep + 1074)) by (apply Z.pow_pos_nonneg; lia).
      assert (HE : 0 < 2 ^ (e + 1074)) by (apply Z.pow_pos_nonneg; lia).
      assert (HY : 0 < 2 ^ (ey + 1074)) by (apply Z.pow_pos_nonneg; lia).
      assert (HT : 0 < 2 ^ 1074) by (apply Z.pow_pos_nonneg; lia).
      assert (H1 : 2 ^ (dp - 1) * 2 ^ (ep + 1074) * 2 ^ 1074
                   <= Zpos mp * 2 ^ (ep + 1074) * 2 ^ 1074).
      { apply Z.mul_le_mono_nonneg_r; [lia|].
        apply Z.mul_le_mono_nonneg_r; lia. }
      assert (H2 : Zpos m * 2 ^ (e + 1074) < 2 ^ dm * 2 ^ (e + 1074))
        by (apply Z.mul_lt_mono_pos_r; lia).
      assert (H3 : Zpos my * 2 ^ (ey + 1074) < 2 ^ dy * 2 ^ (ey + 1074))
        by (apply Z.mul_lt_mono_pos_r; lia).
      rewrite Hval in H1.
      eapply Z.le_lt_trans; [exact H1|].
      apply Z.mul_lt_mono_nonneg; lia. }
    apply pow2_lt_inv in Hlt; lia. }
  assert (He'e : e' <= e) by (subst e'; lia).
  assert (He's : e' <= ep - ey) by (subst e'; lia).
  assert (He'lo : -1074 - 2045 <= e') by (subst e'; lia).
  (* the shifted dividend is a multiple of the divisor *)
  assert (Hq : Zpos mp * 2 ^ (ep - ey - e')
               = (Zpos m * 2 ^ (e - e')) * Zpos my).
  { set (k := ey + 1074 + (e' + 4000)).
    assert (Hk : 0 <= k) by (subst k; lia).
    assert (HK : 0 < 2 ^ k) by (apply Z.pow_pos_nonneg; lia).
    apply (Z.mul_cancel_r _ _ (2 ^ k)); [lia|].
    assert (HL : Zpos mp * 2 ^ (ep - ey - e') * 2 ^ k
                 = Zpos mp * 2 ^ (ep + 1074) * 2 ^ 4000).
    { rewrite <- !Z.mul_assoc, <- !Z.pow_add_r by lia.
      f_equal. f_equal. subst k. lia. }
    assert (HR : Zpos m * 2 ^ (e - e') * Zpos my * 2 ^ k
                 = (Zpos m * 2 ^ (e + 1074)) * (Zpos my * 2 ^ (ey + 1074))
                   * 2 ^ (4000 - 1074)).
    { replace (2 ^ k) with (2 ^ (e' + 4000) * 2 ^ (ey + 1074)).
      2:{ rewrite <- Z.pow_add_r by lia. f_equal. subst k. lia. }
      assert (HE : 2 ^ (e - e') * 2 ^ (e' + 4000)
                   = 2 ^ (e + 1074) * 2 ^ (4000 - 1074)).
      { rewrite <- !Z.pow_add_r by lia. f_equal. lia. }
      remember (2 ^ (e - e')) as A. remember (2 ^ (e' + 4000)) as B.
      remember (2 ^ (e + 1074)) as C. remember (2 ^ (4000 - 1074)) as D.
      remember (2 ^ (ey + 1074)) as Y.
      transitivity (Zpos m * Zpos my * Y * (A * B)); [ring|].
      rewrite HE. ring. }
    rewrite HL, HR, <- Hval.
    replace (2 ^ 4000) with (2 ^ 1074 * 2 ^ (4000 - 1074))
      by (rewrite <- Z.pow_add_r by lia; reflexivity).
    ring. }
  unfold SF64div, SFdiv, SFdiv_core_binary.
  cbn [Zdigits2].
  fold dp dy. rewrite fexp64.
  fold e'.
  assert (Hdiv : forall m', m' = Zpos mp * 2 ^ (ep - ey - e') ->
            (let '(q, r) := Z.div_eucl m' (Zpos my) in
             (q, e', new_location (Zpos my) r))
            = (Zpos m * 2 ^ (e - e'), e', loc_Exact)).
  { intros m' ->. rewrite Hq.
    pose proof (Z.div_mul (Zpos m * 2 ^ (e - e')) (Zpos my) ltac:(lia))
      as Hqv.
    pose proof (Z.mod_mul (Zpos m * 2 ^ (e - e')) (Zpos my) ltac:(lia))
      as Hr.
    unfold Z.div in Hqv. unfold Z.modulo in Hr.
    destruct (Z.div_eucl _ _) as [q r].
    subst r q. f_equal.
    unfold new_location, new_location_even, new_location_odd.
    destruct (Z.even (Zpos my)); reflexivity. }
  assert (Hshift : match ep - ey - e' with
                   | Z0 => Zpos mp
                   | Zpos _ => Z.shiftl (Zpos mp) (ep - ey - e')
                   | Zneg _ => 0
                   end = Zpos mp * 2 ^ (ep - ey - e')).
  { destruct (ep - ey - e') as [|k|k] eqn:Hk; try lia.
    - rewrite <- Hk, Z.shiftl_mul_pow2 by lia. reflexivity. }
  rewrite (Hdiv _ Hshift).
  assert (Hqpos : 0 < Zpos m * 2 ^ (e - e')).
  { apply Z.mul_pos_pos; [lia|]. apply Z.pow_pos_nonneg; lia. }
  destruct (Zpos m * 2 ^ (e - e')) as [|mq|mq] eqn:Hmq; try lia.
  replace (xorb (xorb s sy) sy) with s by (destruct s, sy; reflexivity).
  apply binary_round_aux_exact; [exact Hb|exact He'e|symmetry; exact Hmq].
Qed.

Local Close Scope Z_scope.
Local Open Scope float_scope.

Lemma Prim2SF_one : Prim2SF 1 = S754_finite false 4503599627370496 (-52).
Proof. reflexivity. Qed.

(** Dividing by 1 changes nothing. *)
Lemma div_one (x : float) : x / 1 = x.
Proof.
  apply Prim2SF_inj. rewrite div_spec, Prim2SF_one.
  destruct (Prim2SF x) as [s|s| |s m e] eqn:Hx.
  - cbn. destruct s; reflexivity.
  - cbn. destruct s; reflexivity.
  - reflexivity.
  - pose proof (Prim2SF_bounded x s m e Hx) as Hb.
    replace s with (xorb s false) at 1 by (destruct s; reflexivity).
    apply SFdiv_exact; [exact Hb|exact Hb|reflexivity|].
    change (Zpos 4503599627370496 * 2 ^ (-52 + 1074))%Z with (2 ^ 1074)%Z.
    reflexivity.
Qed.

(** A finite value minus itself is [+0]. *)
Lemma sub_diag_finite (x : float) : isFinite x = true -> x - x = 0.
Proof.
  unfold isFinite. intros Hfin.
  apply Prim2SF_inj. rewrite sub_spec.
  destruct (Prim2SF x) as [s|s| |s m e] eqn:Hx; try discriminate.
  - destruct s; reflexivity.
  - unfold SF64sub, SFsub. rewrite Z.sub_diag. reflexivity.
Qed.

(** [+0] divided by a positive value, times 100, is [+0]. *)
Lemma zero_margin (u : float) :
  isFinite u = true -> (0 <? u) = true -> (u - u) / u * 100 = 0.
Proof.
  intros Hfin Hpos. rewrite (sub_diag_finite u Hfin).
  apply Prim2SF_inj. rewrite mul_spec, div_spec.
  rewrite ltb_spec in Hpos. unfold isFinite in Hfin.
  change (Prim2SF 0) with (S754_zero false) in *.
  destruct (Prim2SF u) as [s|s| |s m e]; try discriminate.
  destruct s; [discriminate|]. reflexivity.
Qed.

End B64Division.

(** ** Facts about lists and the material dictionary *)

Section Lists.
Context {A : Type}.

Lemma find_app_first (p : A -> bool) (l1 l2 : list A) :
  find p (l1 ++ l2)
  = match find p l1 with Some x => Some x | None => find p l2 end.
Proof.
  induction l1 as [|x l1 IH]; [reflexivity|].
  cbn. destruct (p x); [reflexivity|exact IH].
Qed.

(** With at most one element that satisfies [p], [find] gives the same
    answer on every reordering of the list. *)
Lemma find_unique_Permutation (p : A -> bool) (l l' : list A) :
  Permutation l l' ->
  (forall x y, In x l -> In y l -> p x = true -> p y = true -> x = y) ->
  find p l = find p l'.
Proof.
  intros Hperm Huniq.
  destruct (find p l) as [x|] eqn:Hx, (find p l') as [y|] eqn:Hy.
  - apply find_some in Hx as [Hinx Hpx]. apply find_some in Hy as [Hiny Hpy].
    f_equal. apply Huniq; try assumption.
    apply (Permutation_in _ (Permutation_sym Hperm)). exact Hiny.
  - apply find_some in Hx as [Hinx Hpx].
    pose proof (find_none _ _ Hy x (Permutation_in _ Hperm Hinx)) as Hn.
    congruence.
  - apply find_some in Hy as [Hiny Hpy].
    pose proof (find_none _ _ Hx y
                  (Permutation_in _ (Permutation_sym Hperm) Hiny)) as Hn.
    congruence.
  - reflexivity.
Qed.

Lemma NoDup_map_unique {B : Type} (f : A -> B) (l : list A) (x y : A) :
  List.NoDup (map f l) -> In x l -> In y l -> f x = f y -> x = y.
Proof.
  induction l as [|a l IH]; [intros _ []|].
  cbn [map]. intros Hnd Hx Hy Hf.
  apply NoDup_cons_iff in Hnd as [Hna Hnd].
  destruct Hx as [->|Hx], Hy as [->|Hy].
  - reflexivity.
  - exfalso. apply Hna. rewrite Hf. apply in_map. exact Hy.
  - exfalso. apply Hna. rewrite <- Hf. apply in_map. exact Hx.
  - apply IH; assumption.
Qed.

End Lists.

Section Dictionary.
Context {num : Type} `{Number num}.
Local Open Scope num_scope.

Implicit Types (rawMaterials : list (RawMaterialRecord num))
               (product : ProductRecord num)
               (requirement : ProductMaterialInput num).

(** Inserting the records from left to right: the lookup of an id finds the
    last record of the list with this id, if there is one. *)
Lemma materialDictionary_fold rawMaterials
    (acc : gmap string (RawMaterialRecord num)) (id : string) :
  fold_left (fun m item => <[mat_id item := item]> m) rawMaterials acc !! id
  = match find (hasId id) (rev rawMaterials) with
    | Some material => Some material
    | None => acc !! id
    end.
Proof.
  revert acc. induction rawMaterials as [|material rest IH]; intros acc.
  - reflexivity.
  - cbn [fold_left rev]. rewrite IH, find_app_first.
    destruct (find (hasId id) (rev rest)); [reflexivity|].
    cbn [find]. unfold hasId at 1.
    destruct (decide (mat_id material = id)) as [Heq|Hne].
    + rewrite bool_decide_eq_true_2 by exact Heq.
      rewrite Heq. apply lookup_insert_eq.
    + rewrite bool_decide_eq_false_2 by exact Hne.
      apply lookup_insert_ne. exact Hne.
Qed.

Lemma materialDictionary_lookup rawMaterials (id : string) :
  materialDictionary rawMaterials !! id
  = find (hasId id) (rev rawMaterials).
Proof.
  unfold materialDictionary. rewrite materialDictionary_fold.
  destruct (find _ _); [reflexivity|apply lookup_empty].
Qed.

Lemma hasId_unique rawMaterials (id : string) :
  List.NoDup (map mat_id rawMaterials) ->
  forall x y, In x rawMaterials -> In y rawMaterials ->
    hasId id x = true -> hasId id y = true -> x = y.
Proof.
  intros Hnd x y Hx Hy Hpx Hpy.
  apply bool_decide_eq_true_1 in Hpx. apply bool_decide_eq_true_1 in Hpy.
  apply (NoDup_map_unique mat_id rawMaterials); [assumption..|congruence].
Qed.

(** The costs depend on the material list only through the lookups of the
    ids the product refers to. *)
Lemma calculateProductCosts_dict product rawMaterials rawMaterials' :
  (forall requirement, In requirement (materials product) ->
     materialDictionary rawMaterials !! materialId requirement
     = materialDictionary rawMaterials' !! materialId requirement) ->
  calculateProductCosts product rawMaterials
  = calculateProductCosts product rawMaterials'.
Proof.
  intros Hsame.
  assert (Hb : map (breakdownLine (materialDictionary rawMaterials))
                 (materials product)
               = map (breakdownLine (materialDictionary rawMaterials'))
                   (materials product)).
  { apply map_ext_in. intros requirement Hin. unfold breakdownLine.
    rewrite (Hsame requirement Hin). reflexivity. }
  unfold calculateProductCosts. rewrite Hb. reflexivity.
Qed.

End Dictionary.

(** ** The cost engine *)

Section EngineExtras.
Context {num : Type} `{Number num}.
Local Open Scope num_scope.

Implicit Types (rawMaterials : list (RawMaterialRecord num))
               (material : RawMaterialRecord num)
               (product : ProductRecord num)
               (requirement : ProductMaterialInput num).

Lemma find_hasId_None rawMaterials (id : string) :
  find (hasId id) rawMaterials = None
  <-> forall material, In material rawMaterials -> mat_id material <> id.
Proof.
  split.
  - intros Hnone material Hin Heq.
    pose proof (find_none _ _ Hnone material Hin) as Hfalse.
    unfold hasId in Hfalse.
    rewrite bool_decide_eq_true_2 in Hfalse by exact Heq.
    discriminate.
  - intros Hall. destruct (find (hasId id) rawMaterials) as [m|] eqn:Hf;
      [|reflexivity].
    apply find_some in Hf as [Hin Hp]. apply bool_decide_eq_true_1 in Hp.
    exfalso. exact (Hall m Hin Hp).
Qed.

(** X1: the dictionary that [calculateProductCosts] builds from the material
    list maps an id to the last record of the list with this id: a record
    found has the id and is in the list, a record appended to the list
    replaces the earlier ones with its id, and an id is mapped to nothing
    exactly when no record of the list has it. *)
Theorem materialDictionary_last_wins rawMaterials (id : string) :
  materialDictionary rawMaterials !! id
  = find (hasId id) (rev rawMaterials)
  /\ (forall material,
        materialDictionary rawMaterials !! id = Some material ->
        In material rawMaterials /\ mat_id material = id)
  /\ (forall material,
        materialDictionary (rawMaterials ++ [material]) !! mat_id material
        = Some material)
  /\ (materialDictionary rawMaterials !! id = None
      <-> forall material, In material rawMaterials ->
            mat_id material <> id).
Proof.
  split; [apply materialDictionary_lookup|].
  split; [|split].
  - intros material Hsome. rewrite materialDictionary_lookup in Hsome.
    apply find_some in Hsome as [Hin Hid].
    split; [apply in_rev; exact Hin|].
    apply bool_decide_eq_true_1 in Hid. exact Hid.
  - intros material. rewrite materialDictionary_lookup, rev_unit.
    cbn [find]. unfold hasId.
    rewrite bool_decide_eq_true_2 by reflexivity. reflexivity.
  - rewrite materialDictionary_lookup, find_hasId_None.
    split; intros Hall material Hin; apply Hall;
      [apply -> in_rev|apply in_rev]; exact Hin.
Qed.

(** X2: the breakdown line of a requirement is the "not found" line (cost 0,
    invalid, warning "Materia prima no encontrada") exactly when no record of
    the material list has the requirement's material id; the line then is in
    the breakdown of every product that has the requirement. *)
Theorem missing_material_line product rawMaterials requirement :
  ((forall material, In material rawMaterials ->
      mat_id material <> materialId requirement)
   <-> breakdownLine (materialDictionary rawMaterials) requirement
       = notFoundLine requirement)
  /\ (In requirement (materials product) ->
      (forall material, In material rawMaterials ->
         mat_id material <> materialId requirement) ->
      In (notFoundLine requirement)
         (breakdown (calculateProductCosts product rawMaterials))).
Proof.
  assert (Hiff : (forall material, In material rawMaterials ->
                    mat_id material <> materialId requirement)
                 <-> breakdownLine (materialDictionary rawMaterials)
                       requirement = notFoundLine requirement).
  { split.
    - intros Hall. unfold breakdownLine.
      rewrite materialDictionary_lookup.
      rewrite (proj2 (find_hasId_None (rev rawMaterials) _)); [reflexivity|].
      intros material Hin. apply Hall. apply in_rev. exact Hin.
    - intros Hline material Hin.
      apply (proj1 (find_hasId_None (rev rawMaterials) _));
        [|apply -> in_rev; exact Hin].
      rewrite <- materialDictionary_lookup.
      destruct (materialDictionary rawMaterials !! materialId requirement)
        as [m|] eqn:Hm; [exfalso|reflexivity].
      apply (f_equal line_warning) in Hline.
      unfold breakdownLine in Hline. rewrite Hm in Hline.
      cbn [line_warning notFoundLine] in Hline.
      destruct (decide (getUnitSystem (purchaseUnit m)
                        = getUnitSystem (unit requirement))) as [He|Hne].
      + rewrite (getProductMaterialCost_compatible _ _ He) in Hline.
        discriminate.
      + rewrite (getProductMaterialCost_incompatible _ _ Hne) in Hline.
        discriminate. }
  split; [exact Hiff|].
  intros Hin Hall. cbn [breakdown calculateProductCosts].
  apply in_map_iff. exists requirement. split; [|exact Hin].
  apply Hiff. exact Hall.
Qed.

(** X3: when the ids of the material list are pairwise distinct, the result
    of [calculateProductCosts] does not depend on the order of the list. *)
Theorem costs_order_independent product rawMaterials rawMaterials' :
  List.NoDup (map mat_id rawMaterials) ->
  Permutation rawMaterials rawMaterials' ->
  calculateProductCosts product rawMaterials
  = calculateProductCosts product rawMaterials'.
Proof.
  intros Hnd Hperm. apply calculateProductCosts_dict.
  intros requirement _. rewrite !materialDictionary_lookup.
  apply find_unique_Permutation.
  - rewrite <- !Permutation_rev. exact Hperm.
  - intros x y Hx Hy. apply (hasId_unique rawMaterials _ Hnd);
      apply in_rev; assumption.
Qed.

(** X4: a material that no requirement of the product refers to does not
    influence the result: the costs are the same with and without it,
    wherever it stands in the list. *)
Theorem costs_unreferenced_material product rawMaterials rawMaterials'
    material :
  (forall requirement, In requirement (materials product) ->
     materialId requirement <> mat_id material) ->
  calculateProductCosts product (rawMaterials ++ material :: rawMaterials')
  = calculateProductCosts product (rawMaterials ++ rawMaterials').
Proof.
  intros Hunref. apply calculateProductCosts_dict.
  intros requirement Hin. rewrite !materialDictionary_lookup.
  rewrite !rev_app_distr. cbn [rev]. rewrite <- app_assoc.
  rewrite !find_app_first. cbn [find app].
  destruct (find _ (rev rawMaterials')); [reflexivity|].
  unfold hasId at 1.
  rewrite bool_decide_eq_false_2; [reflexivity|].
  intros Heq. exact (Hunref requirement Hin (eq_sym Heq)).
Qed.

(** X5: appending a requirement to a product's formula appends its line to
    the breakdown and adds the cost of that line to totalMaterialCost (one
    more addition, at the end of the running sum). *)
Theorem total_material_cost_snoc product product' rawMaterials requirement :
  materials product' = materials product ++ [requirement] ->
  let r := calculateProductCosts product rawMaterials in
  let r' := calculateProductCosts product' rawMaterials in
  let line := breakdownLine (materialDictionary rawMaterials) requirement in
  breakdown r' = breakdown r ++ [line]
  /\ totalMaterialCost r' = totalMaterialCost r + line_cost line.
Proof.
  intros Hm r r' line. subst r r' line.
  unfold calculateProductCosts. cbn [breakdown totalMaterialCost].
  rewrite Hm, map_app, fold_left_app. split; reflexivity.
Qed.

(** X6: products with the same batch size, formula, labor cost and additional
    cost have the same breakdown, totalMaterialCost, totalCost and unitCost,
    whatever their target margins and override prices are; and if they have
    the same override price, the displayed sale price and margin are the same
    too, whatever their target margins are. *)
Theorem costs_ignore_pricing_fields product product' rawMaterials :
  batchSize product = batchSize product' ->
  materials product = materials product' ->
  laborCost product = laborCost product' ->
  additionalCost product = additionalCost product' ->
  let r := calculateProductCosts product rawMaterials in
  let r' := calculateProductCosts product' rawMaterials in
  breakdown r = breakdown r'
  /\ totalMaterialCost r = totalMaterialCost r'
  /\ totalCost r = totalCost r'
  /\ unitCost r = unitCost r'
  /\ (overrideSalePrice product = overrideSalePrice product' ->
      overrideSalePrice product <> None ->
      derivedSalePrice (productWithDerived rawMaterials product)
      = derivedSalePrice (productWithDerived rawMaterials product')
      /\ margin (productWithDerived rawMaterials product)
         = margin (productWithDerived rawMaterials product')).
Proof.
  intros Hb Hm Hl Ha r r'.
  assert (Hu : unitCost r = unitCost r').
  { subst r r'. unfold calculateProductCosts. cbn [unitCost].
    rewrite Hb, Hm, Hl, Ha. reflexivity. }
  split; [subst r r'; unfold calculateProductCosts; cbn [breakdown];
          rewrite Hm; reflexivity|].
  split; [subst r r'; unfold calculateProductCosts; cbn [totalMaterialCost];
          rewrite Hm; reflexivity|].
  split; [subst r r'; unfold calculateProductCosts; cbn [totalCost];
          rewrite Hm, Hl, Ha; reflexivity|].
  split; [exact Hu|].
  intros Ho Hsome. unfold productWithDerived. cbn [derivedSalePrice margin].
  fold r r'. rewrite <- Ho, Hu.
  destruct (overrideSalePrice product) as [v|]; [|contradiction].
  split; reflexivity.
Qed.

(** X7: [hasWarnings] is true exactly when the product has a requirement
    whose material is not in the dictionary or whose unit system differs
    from that of the material's purchase unit. *)
Theorem hasWarnings_iff product rawMaterials :
  hasWarnings (productWithDerived rawMaterials product) = true
  <-> exists requirement, In requirement (materials product) /\
        match materialDictionary rawMaterials !! materialId requirement with
        | None => True
        | Some material =>
            getUnitSystem (purchaseUnit material)
            <> getUnitSystem (unit requirement)
        end.
Proof.
  unfold productWithDerived. cbn [hasWarnings].
  unfold calculateProductCosts. cbn [breakdown].
  rewrite existsb_exists. split.
  - intros (line & Hin & Hv). apply in_map_iff in Hin as (req & <- & Hin).
    exists req. split; [exact Hin|].
    apply negb_true_iff in Hv. unfold breakdownLine in Hv. cbn in Hv.
    rewrite getProductMaterialCost_valid in Hv.
    destruct (materialDictionary rawMaterials !! materialId req) as [m|];
      [|exact I].
    apply bool_decide_eq_false_1 in Hv. exact Hv.
  - intros (req & Hin & Hcase).
    exists (breakdownLine (materialDictionary rawMaterials) req).
    split; [apply in_map; exact Hin|].
    apply negb_true_iff. unfold breakdownLine. cbn.
    rewrite getProductMaterialCost_valid.
    destruct (materialDictionary rawMaterials !! materialId req) as [m|];
      [|reflexivity].
    apply bool_decide_eq_false_2. exact Hcase.
Qed.

(** X8: when the ids of the material list are pairwise distinct,
    [getMaterialById] (which takes the first record with the id) and the
    dictionary of [calculateProductCosts] (which keeps the last) find the
    same material. *)
Theorem getMaterialById_agrees_with_dictionary rawMaterials (id : string) :
  List.NoDup (map mat_id rawMaterials) ->
  getMaterialById rawMaterials id = materialDictionary rawMaterials !! id.
Proof.
  intros Hnd. rewrite materialDictionary_lookup.
  apply (find_unique_Permutation (hasId id)).
  - apply Permutation_rev.
  - apply hasId_unique. exact Hnd.
Qed.

End EngineExtras.

Lemma costs_order_independent_witness :
  calculateProductCosts Scenario.soap [Scenario.soapBase; Inputs.emptyStock]
  = calculateProductCosts Scenario.soap [Inputs.emptyStock; Scenario.soapBase].
Proof.
  apply (costs_order_independent Scenario.soap
           [Scenario.soapBase; Inputs.emptyStock]
           [Inputs.emptyStock; Scenario.soapBase]).
  - apply List.NoDup_cons; [intros [Heq|[]]; discriminate|].
    apply List.NoDup_cons; [intros []|apply List.NoDup_nil].
  - apply perm_swap.
Defined.

Lemma costs_unreferenced_material_witness :
  calculateProductCosts Scenario.soap
    ([Scenario.soapBase] ++ Inputs.emptyStock :: [])
  = calculateProductCosts Scenario.soap ([Scenario.soapBase] ++ []).
Proof.
  apply (costs_unreferenced_material Scenario.soap [Scenario.soapBase] []
           Inputs.emptyStock).
  intros requirement [<-|[]]. discriminate.
Defined.

Lemma total_material_cost_snoc_witness :
  totalMaterialCost (calculateProductCosts Inputs.orphan [Scenario.soapBase])
  = (totalMaterialCost
       (calculateProductCosts (Inputs.wholeProduct 1 1) [Scenario.soapBase])
     + 0)%float.
Proof.
  exact (proj2 (total_material_cost_snoc (Inputs.wholeProduct 1 1)
                  Inputs.orphan [Scenario.soapBase]
                  {| materialId := "gone"; quantity := 3%float; unit := Ug |}
                  eq_refl)).
Defined.

Lemma costs_ignore_pricing_fields_witness :
  unitCost (calculateProductCosts Scenario.soap [Scenario.soapBase])
  = unitCost (calculateProductCosts Inputs.thinMargin [Scenario.soapBase]).
Proof.
  exact (proj1 (proj2 (proj2 (proj2
           (costs_ignore_pricing_fields Scenario.soap Inputs.thinMargin
              [Scenario.soapBase] eq_refl eq_refl eq_refl eq_refl))))).
Defined.

Lemma getMaterialById_agrees_with_dictionary_witness :
  getMaterialById [Scenario.soapBase; Inputs.emptyStock] "m0"
  = materialDictionary [Scenario.soapBase; Inputs.emptyStock] !! "m0".
Proof.
  apply (getMaterialById_agrees_with_dictionary
           [Scenario.soapBase; Inputs.emptyStock] "m0").
  apply List.NoDup_cons; [intros [Heq|[]]; discriminate|].
  apply List.NoDup_cons; [intros []|apply List.NoDup_nil].
Defined.

(** ** Unit choices and form rows *)

Section FormExtras.
Context {num : Type} `{Number num}.
Local Open Scope num_scope.

Implicit Types (rawMaterials : list (RawMaterialRecord num))
               (material : RawMaterialRecord num)
               (requirement : ProductMaterialInput num)
               (prev : ProductFormState)
               (row : ProductMaterialForm).

(** X9: the units [getUnitOptionsForSystem] offers for a unit are exactly the
    units of the same unit system; so a requirement whose unit is among the
    options for the material's purchase unit is always priced as valid. *)
Theorem unit_options_compatible :
  (forall u u' : Unit,
     In u' (getUnitOptionsForSystem u)
     <-> getUnitSystem u' = getUnitSystem u)
  /\ (forall material requirement,
        In (unit requirement)
           (getUnitOptionsForSystem (purchaseUnit material)) ->
        valid (getProductMaterialCost (Some material) requirement) = true).
Proof.
  assert (Hopt : forall u u' : Unit,
            In u' (getUnitOptionsForSystem u)
            <-> getUnitSystem u' = getUnitSystem u).
  { intros u u'. destruct u, u'; cbn; split; intros Hin;
      try reflexivity; try discriminate;
      repeat (destruct Hin as [Hin|Hin]; try discriminate);
      try contradiction; auto. }
  split; [exact Hopt|].
  intros material requirement Hin. apply Hopt in Hin.
  rewrite getProductMaterialCost_valid.
  apply bool_decide_eq_true_2. symmetry. exact Hin.
Qed.

(** X10: the unit [getSuggestedUnit] proposes for a purchase unit is among
    the options for it, is its own suggestion, and is the base unit of the
    system: quantities in it are converted to the base unit unchanged. *)
Theorem suggested_unit_is_base (u : Unit) :
  In (getSuggestedUnit u) (getUnitOptionsForSystem u)
  /\ getSuggestedUnit (getSuggestedUnit u) = getSuggestedUnit u
  /\ forall q : num, convertToBaseUnit q (getSuggestedUnit u) = q.
Proof.
  destruct u; cbn; repeat split; auto.
Qed.

Lemma updateRow_compatible rawMaterials (value : string) row material :
  getMaterialById rawMaterials value = Some material ->
  getUnitSystem (row_unit (updateRow rawMaterials (SetMaterialId value) row))
  = getUnitSystem (purchaseUnit material)
  /\ (getUnitSystem (row_unit row) = getUnitSystem (purchaseUnit material) ->
      row_unit (updateRow rawMaterials (SetMaterialId value) row)
      = row_unit row).
Proof.
  intros Hsel. unfold updateRow. rewrite Hsel. cbn [row_unit].
  destruct (decide (row_unit row
                    ∈ getUnitOptionsForSystem (purchaseUnit material)))
    as [Hin|Hnin].
  - rewrite bool_decide_eq_true_2 by exact Hin. cbn [negb].
    split; [|reflexivity].
    apply list_elem_of_In in Hin.
    apply (proj1 unit_options_compatible). exact Hin.
  - rewrite bool_decide_eq_false_2 by exact Hnin. cbn [negb].
    split.
    + apply (proj1 unit_options_compatible).
      apply (suggested_unit_is_base (purchaseUnit material)).
    + intros Hsame. exfalso. apply Hnin. apply list_elem_of_In.
      apply (proj1 unit_options_compatible). exact Hsame.
Qed.

(** X11: choosing an existing material for the rows with a given id
    ([updateProductMaterialField] on the field materialId) keeps the rows
    and their ids; each row with that id gets the material, and its unit is
    afterwards in the material's unit system, so that a requirement built
    from the row is priced as valid; the other rows are left as they were. *)
Theorem material_choice_keeps_unit_compatible rawMaterials (id value : string)
    prev material :
  getMaterialById rawMaterials value = Some material ->
  let next :=
    updateProductMaterialField rawMaterials id (SetMaterialId value) prev in
  length (form_materials next) = length (form_materials prev)
  /\ map row_id (form_materials next) = map row_id (form_materials prev)
  /\ (forall row, In row (form_materials next) -> row_id row = id ->
        row_materialId row = value
        /\ getUnitSystem (row_unit row)
           = getUnitSystem (purchaseUnit material)
        /\ forall q : num,
             valid (getProductMaterialCost (Some material)
                      {| materialId := value; quantity := q;
                         unit := row_unit row |}) = true)
  /\ (forall row, In row (form_materials next) -> row_id row <> id ->
        In row (form_materials prev)).
Proof.
  intros Hsel next. subst next.
  unfold updateProductMaterialField. cbn [form_materials withFormMaterials].
  split; [apply length_map|].
  split.
  { rewrite map_map. apply map_ext. intros item.
    destruct (decide (row_id item = id)) as [Heq|Hne].
    - rewrite bool_decide_eq_true_2 by exact Heq. reflexivity.
    - rewrite bool_decide_eq_false_2 by exact Hne. reflexivity. }
  split.
  - intros row Hin Hid. apply in_map_iff in Hin as (item & <- & Hin).
    destruct (decide (row_id item = id)) as [Heq|Hne].
    + rewrite bool_decide_eq_true_2 by exact Heq. cbn [negb].
      destruct (updateRow_compatible rawMaterials value item material Hsel)
        as [Hsys _].
      split; [reflexivity|]. split; [exact Hsys|].
      intros q. rewrite getProductMaterialCost_valid.
      apply bool_decide_eq_true_2. symmetry. exact Hsys.
    + rewrite bool_decide_eq_false_2 in Hid by exact Hne. cbn [negb] in Hid.
      contradiction.
  - intros row Hin Hid. apply in_map_iff in Hin as (item & <- & Hin).
    destruct (decide (row_id item = id)) as [Heq|Hne].
    + rewrite bool_decide_eq_true_2 in Hid by exact Heq. cbn [negb] in Hid.
      exfalso. apply Hid. exact Heq.
    + rewrite bool_decide_eq_false_2 by exact Hne. exact Hin.
Qed.

End FormExtras.

Lemma material_choice_keeps_unit_compatible_witness :
  row_materialId
    (updateRow [Scenario.soapBase] (SetMaterialId "m1") FormInputs.row1)
  = "m1"
  /\ getUnitSystem
       (row_unit
          (updateRow [Scenario.soapBase] (SetMaterialId "m1")
             FormInputs.row1))
     = Mass.
Proof.
  pose proof (proj1 (proj2 (proj2
    (material_choice_keeps_unit_compatible [Scenario.soapBase] "r1" "m1"
       (FormInputs.formOf [FormInputs.row1; FormInputs.row2])
       Scenario.soapBase eq_refl)))
    (updateRow [Scenario.soapBase] (SetMaterialId "m1") FormInputs.row1)
    (or_introl eq_refl) eq_refl) as (Hid & Hsys & _).
  split; [exact Hid|exact Hsys].
Defined.

Lemma filter_other_ids_length (id : string) (rows : list ProductMaterialForm) :
  List.NoDup (map row_id rows) ->
  (length rows
   <= S (length (List.filter
                   (fun item => negb (bool_decide (row_id item = id)))
                   rows)))%nat.
Proof.
  induction rows as [|row rows IH]; [cbn; lia|].
  cbn [map List.filter length]. intros Hnd.
  apply NoDup_cons_iff in Hnd as [Hnin Hnd].
  destruct (decide (row_id row = id)) as [Heq|Hne].
  - rewrite bool_decide_eq_true_2 by exact Heq. cbn [negb].
    (* no other row has this id *)
    assert (Hall : List.filter
                     (fun item => negb (bool_decide (row_id item = id))) rows
                   = rows).
    { apply forallb_filter_id. apply forallb_forall. intros item Hin.
      apply negb_true_iff. apply bool_decide_eq_false_2. intros Hid.
      apply Hnin. rewrite Heq, <- Hid. apply in_map. exact Hin. }
    rewrite Hall. lia.
  - rewrite bool_decide_eq_false_2 by exact Hne. cbn [negb length].
    specialize (IH Hnd). lia.
Qed.

(** X12: on a form that has at least one row and pairwise distinct row ids,
    [removeMaterialLine] never leaves the form without rows and never adds a
    row; with more than one row it removes exactly the rows with the given
    id, and with a single row it changes nothing. *)
Theorem removeMaterialLine_keeps_a_row (id : string)
    (prev : ProductFormState) :
  List.NoDup (map row_id (form_materials prev)) ->
  form_materials prev <> [] ->
  let next := removeMaterialLine id prev in
  form_materials next <> []
  /\ (forall row, In row (form_materials next) ->
        In row (form_materials prev))
  /\ ((1 < length (form_materials prev))%nat ->
      forall row, In row (form_materials next)
                  <-> In row (form_materials prev) /\ row_id row <> id)
  /\ (length (form_materials prev) = 1%nat ->
      form_materials next = form_materials prev).
Proof.
  intros Hnd Hne next. subst next.
  unfold removeMaterialLine. cbn [form_materials withFormMaterials].
  pose proof (filter_other_ids_length id (form_materials prev) Hnd) as Hlen.
  assert (Hfilter : forall row,
            In row (List.filter
                      (fun item => negb (bool_decide (row_id item = id)))
                      (form_materials prev))
            <-> In row (form_materials prev) /\ row_id row <> id).
  { intros row. rewrite filter_In, negb_true_iff, bool_decide_eq_false.
    reflexivity. }
  destruct (1 <? length (form_materials prev))%nat eqn:Hgt.
  - apply Nat.ltb_lt in Hgt.
    split.
    { intros Hnil. rewrite Hnil in Hlen. cbn in Hlen. lia. }
    split; [intros row Hin; apply Hfilter in Hin; tauto|].
    split; [intros _; exact Hfilter|]. lia.
  - apply Nat.ltb_ge in Hgt.
    split; [exact Hne|]. split; [auto|]. split; [lia|reflexivity].
Qed.

Lemma removeMaterialLine_keeps_a_row_witness :
  form_materials
    (removeMaterialLine "r1"
       (FormInputs.formOf [FormInputs.row1; FormInputs.row2])) <> []
  /\ form_materials
       (removeMaterialLine "r1" (FormInputs.formOf [FormInputs.row1]))
     = [FormInputs.row1].
Proof.
  split.
  - apply (removeMaterialLine_keeps_a_row "r1"
             (FormInputs.formOf [FormInputs.row1; FormInputs.row2])).
    + apply List.NoDup_cons; [intros [Heq|[]]; discriminate|].
      apply List.NoDup_cons; [intros []|apply List.NoDup_nil].
    + discriminate.
  - apply (removeMaterialLine_keeps_a_row "r1"
             (FormInputs.formOf [FormInputs.row1])).
    + apply List.NoDup_cons; [intros []|apply List.NoDup_nil].
    + discriminate.
    + reflexivity.
Defined.

(** X13: [toggleProductDetails] flips the expansion of the given product row
    and of no other; toggling twice gives back the expansion state of every
    row (a row that was never toggled reads as collapsed). *)
Theorem toggle_twice (id : string) (rows : gmap string bool) :
  (forall other : string,
     isExpanded (toggleProductDetails id (toggleProductDetails id rows)) other
     = isExpanded rows other)
  /\ isExpanded (toggleProductDetails id rows) id = negb (isExpanded rows id)
  /\ (forall other : string, other <> id ->
        isExpanded (toggleProductDetails id rows) other
        = isExpanded rows other).
Proof.
  unfold isExpanded, toggleProductDetails.
  split; [|split].
  - intros other. destruct (decide (id = other)) as [->|Hne].
    + rewrite !lookup_insert_eq. cbn. apply negb_involutive.
    + rewrite !lookup_insert_ne by exact Hne. reflexivity.
  - rewrite lookup_insert_eq. reflexivity.
  - intros other Hne. rewrite lookup_insert_ne by (intros ->; contradiction).
    reflexivity.
Qed.

(** ** Quantities expressed in the base unit *)

Section UnitExtras.
Context {num : Type} `{Number num}.
Local Open Scope num_scope.

(** X14: a requirement of q kilograms (liters) is priced exactly as the
    requirement of q × 1000 grams (milliliters); and a material whose
    purchase is recorded in the base unit (quantity converted, unit the
    suggested one) has the same derived values and gives every requirement
    the same result. *)
Theorem cost_unit_reexpression :
  (forall (om : option (RawMaterialRecord num)) (id : string) (q : num),
     getProductMaterialCost om
       {| materialId := id; quantity := q; unit := Ukg |}
     = getProductMaterialCost om
         {| materialId := id; quantity := q * lit 1000; unit := Ug |}
     /\ getProductMaterialCost om
          {| materialId := id; quantity := q; unit := Ul |}
        = getProductMaterialCost om
            {| materialId := id; quantity := q * lit 1000; unit := Uml |})
  /\ (forall (material material' : RawMaterialRecord num)
             (requirement : ProductMaterialInput num),
        purchasePrice material' = purchasePrice material ->
        purchaseQuantity material'
        = convertToBaseUnit (purchaseQuantity material)
            (purchaseUnit material) ->
        purchaseUnit material' = getSuggestedUnit (purchaseUnit material) ->
        getMaterialDerivedValues material'
        = getMaterialDerivedValues material
        /\ getProductMaterialCost (Some material') requirement
           = getProductMaterialCost (Some material) requirement).
Proof.
  split.
  - intros om id q. destruct om as [material|]; [|split; reflexivity].
    unfold getProductMaterialCost. cbn [unit quantity].
    split; destruct (decide _); reflexivity.
  - intros material material' requirement Hp Hq Hu.
    assert (Hd : getMaterialDerivedValues material'
                 = getMaterialDerivedValues material).
    { unfold getMaterialDerivedValues. rewrite Hp, Hq, Hu.
      destruct (purchaseUnit material); reflexivity. }
    split; [exact Hd|].
    unfold getProductMaterialCost. rewrite Hd. reflexivity.
Qed.

End UnitExtras.

(** ** Prices and margins on binary64 *)

Section FloatExtras.
Import B64Facts B64Division.
Local Open Scope float_scope.

Implicit Types (material : RawMaterialRecord float)
               (product : ProductRecord float)
               (rawMaterials : list (RawMaterialRecord float)).

(** X15: a product without override price whose target margin is ≤ 0 and
    whose unit cost is finite is recommended at its unit cost and displays a
    margin of exactly 0. *)
Theorem break_even_margin_zero product rawMaterials :
  (targetMargin product <=? 0) = true ->
  overrideSalePrice product = None ->
  B64.isFinite (unitCost (calculateProductCosts product rawMaterials))
  = true ->
  recommendedPrice (calculateProductCosts product rawMaterials)
  = unitCost (calculateProductCosts product rawMaterials)
  /\ margin (productWithDerived rawMaterials product) = 0.
Proof.
  intros Hle Hov Hfin.
  set (r := calculateProductCosts product rawMaterials) in *.
  assert (Hprice : recommendedPrice r = unitCost r).
  { subst r. unfold calculateProductCosts. cbn [recommendedPrice unitCost].
    change (gtb (targetMargin product) (lit 0))
      with (0 <? targetMargin product).
    rewrite (leb_gtb_false _ _ Hle). reflexivity. }
  split; [exact Hprice|].
  unfold productWithDerived. cbn [margin]. rewrite Hov. cbn [default].
  fold r. rewrite Hprice.
  change (gtb (unitCost r) (lit 0)) with (0 <? unitCost r).
  destruct (0 <? unitCost r) eqn:Hpos; [|reflexivity].
  exact (zero_margin (unitCost r) Hfin Hpos).
Qed.

Lemma break_even_margin_zero_witness :
  recommendedPrice (calculateProductCosts Inputs.orphan []) = 7
  /\ margin (productWithDerived [] Inputs.orphan) = 0.
Proof.
  destruct (break_even_margin_zero Inputs.orphan [] eq_refl eq_refl eq_refl)
    as [Hprice Hmargin].
  split; [exact Hprice|exact Hmargin].
Defined.

(** X16: with a batch size of 1 the unit cost is the total cost, whatever
    the total cost is (dividing a binary64 value by 1 returns it). *)
Theorem unit_batch_unit_cost product rawMaterials :
  batchSize product = 1 ->
  unitCost (calculateProductCosts product rawMaterials)
  = totalCost (calculateProductCosts product rawMaterials).
Proof.
  intros Hb. unfold calculateProductCosts. cbn [unitCost totalCost].
  rewrite Hb. change (gtb 1 (lit 0)) with true. cbv iota.
  apply div_one.
Qed.

Lemma unit_batch_unit_cost_witness :
  unitCost (calculateProductCosts Inputs.orphan [Scenario.soapBase]) = 7.
Proof.
  exact (unit_batch_unit_cost Inputs.orphan [Scenario.soapBase] eq_refl).
Defined.

End FloatExtras.

(** ** Inventory statistics *)

Section StatsExtras.
Import Stats.
Local Open Scope float_scope.

Implicit Types (material : RawMaterialRecord float)
               (rawMaterials : list (RawMaterialRecord float)).

Lemma nonpositive_pricePerBaseUnit material :
  (purchaseQuantity material <=? 0) = true ->
  pricePerBaseUnit (getMaterialDerivedValues material) = 0.
Proof.
  intros Hle. unfold getMaterialDerivedValues. cbn [pricePerBaseUnit].
  change (gtb ?x (lit 0)) with (0 <? x).
  rewrite (nonpositive_baseQuantity _ _ Hle). reflexivity.
Qed.

Lemma pricePerKilogram_falsy material :
  getUnitSystem (purchaseUnit material) <> Mass
  \/ (purchaseQuantity material <=? 0) = true ->
  truthyField (pricePerKilogram (getMaterialDerivedValues material)) = false.
Proof.
  intros Hcase.
  destruct (decide (getUnitSystem (purchaseUnit material) = Mass))
    as [Hmass|Hother].
  - destruct Hcase as [Hne|Hle]; [contradiction|].
    pose proof (nonpositive_pricePerBaseUnit material Hle) as Hp.
    unfold getMaterialDerivedValues in *.
    cbn [pricePerKilogram pricePerBaseUnit] in *.
    destruct (decide _) as [_|Hn]; [|reflexivity].
    rewrite Hp. reflexivity.
  - unfold getMaterialDerivedValues. cbn [pricePerKilogram].
    destruct (decide _) as [Hm|_]; [contradiction|reflexivity].
Qed.

Lemma pricePerLiter_falsy material :
  getUnitSystem (purchaseUnit material) <> Volume
  \/ (purchaseQuantity material <=? 0) = true ->
  truthyField (pricePerLiter (getMaterialDerivedValues material)) = false.
Proof.
  intros Hcase.
  destruct (decide (getUnitSystem (purchaseUnit material) = Volume))
    as [Hvol|Hother].
  - destruct Hcase as [Hne|Hle]; [contradiction|].
    pose proof (nonpositive_pricePerBaseUnit material Hle) as Hp.
    unfold getMaterialDerivedValues in *.
    cbn [pricePerLiter pricePerBaseUnit] in *.
    destruct (decide _) as [_|Hn]; [|reflexivity].
    rewrite Hp. reflexivity.
  - unfold getMaterialDerivedValues. cbn [pricePerLiter].
    destruct (decide _) as [Hm|_]; [contradiction|reflexivity].
Qed.

Lemma filter_enriched_skip (f : EnrichedMaterial float -> bool)
    rawMaterials rawMaterials' material :
  f {| em_material := material;
       em_derived := getMaterialDerivedValues material |} = false ->
  List.filter f (enrichedMaterials (rawMaterials ++ material :: rawMaterials'))
  = List.filter f (enrichedMaterials (rawMaterials ++ rawMaterials')).
Proof.
  intros Hf. unfold enrichedMaterials.
  rewrite !map_app, !List.filter_app. cbn [map List.filter]. rewrite Hf.
  reflexivity.
Qed.

(** Adding a price to the initial sum [0] gives the price. *)
Lemma add_zero_l_truthy (p : float) : truthy p = true -> 0 + p = p.
Proof.
  unfold truthy, B64.isNaN. rewrite FloatAxioms.eqb_spec. intros Ht.
  apply Prim2SF_inj. rewrite add_spec.
  change (Prim2SF 0) with (S754_zero false).
  destruct (Prim2SF p) as [s|s| |s m e]; try reflexivity.
  destruct s; discriminate.
Qed.

Lemma filter_enriched_none (f : EnrichedMaterial float -> bool) rawMaterials :
  (forall m, In m rawMaterials ->
     f {| em_material := m; em_derived := getMaterialDerivedValues m |}
     = false) ->
  List.filter f (enrichedMaterials rawMaterials) = [].
Proof.
  induction rawMaterials as [|m rest IH]; intros Hall; [reflexivity|].
  cbn [enrichedMaterials map List.filter].
  rewrite (Hall m) by (left; reflexivity).
  apply IH. intros m' Hin. apply Hall. right. exact Hin.
Qed.

Lemma filter_enriched_all (f : EnrichedMaterial float -> bool) rawMaterials :
  (forall m, In m rawMaterials ->
     f {| em_material := m; em_derived := getMaterialDerivedValues m |}
     = true) ->
  List.filter f (enrichedMaterials rawMaterials)
  = enrichedMaterials rawMaterials.
Proof.
  induction rawMaterials as [|m rest IH]; intros Hall; [reflexivity|].
  cbn [enrichedMaterials map List.filter].
  rewrite (Hall m) by (left; reflexivity).
  f_equal. apply IH. intros m' Hin. apply Hall. right. exact Hin.
Qed.

Lemma truthy_pricePerKilogram material :
  truthyField (pricePerKilogram (getMaterialDerivedValues material)) = true ->
  pricePerKilogram (getMaterialDerivedValues material)
  = Some (pricePerBaseUnit (getMaterialDerivedValues material) * 1000).
Proof.
  unfold getMaterialDerivedValues. cbn [pricePerKilogram pricePerBaseUnit].
  destruct (decide _); [reflexivity|discriminate].
Qed.

Lemma truthy_pricePerLiter material :
  truthyField (pricePerLiter (getMaterialDerivedValues material)) = true ->
  pricePerLiter (getMaterialDerivedValues material)
  = Some (pricePerBaseUnit (getMaterialDerivedValues material) * 1000).
Proof.
  unfold getMaterialDerivedValues. cbn [pricePerLiter pricePerBaseUnit].
  destruct (decide _); [reflexivity|discriminate].
Qed.

Lemma fold_prices (field : MaterialDerivedValues float -> option float)
    rawMaterials (acc : float) :
  (forall m, In m rawMaterials ->
     field (getMaterialDerivedValues m)
     = Some (pricePerBaseUnit (getMaterialDerivedValues m) * 1000)) ->
  fold_left (fun sum value => sum + value)
    (map (fun item => default 0 (field (em_derived item)))
       (enrichedMaterials rawMaterials)) acc
  = fold_left
      (fun sum m => sum + pricePerBaseUnit (getMaterialDerivedValues m) * 1000)
      rawMaterials acc.
Proof.
  revert acc. induction rawMaterials as [|m rest IH]; intros acc Hall;
    [reflexivity|].
  cbn [enrichedMaterials map fold_left em_derived].
  rewrite (Hall m) by (left; reflexivity). cbn [default].
  apply IH. intros m' Hin. apply Hall. right. exact Hin.
Qed.

Lemma length_enriched rawMaterials :
  length (enrichedMaterials rawMaterials) = length rawMaterials.
Proof. apply length_map. Qed.

(** The average of [materialStats] over a list in which every material has
    a price in the field. *)
Lemma average_all_priced
    (field : MaterialDerivedValues float -> option float) rawMaterials :
  rawMaterials <> [] ->
  (forall m, In m rawMaterials ->
     truthyField (field (getMaterialDerivedValues m)) = true
     /\ field (getMaterialDerivedValues m)
        = Some (pricePerBaseUnit (getMaterialDerivedValues m) * 1000)) ->
  (let prices :=
     map (fun item => default 0 (field (em_derived item)))
       (List.filter (fun item => truthyField (field (em_derived item)))
          (enrichedMaterials rawMaterials)) in
   if (length prices =? 0)%nat then 0
   else fold_left (fun sum value => sum + value) prices 0
        / lit (Z.of_nat (length prices)))
  = fold_left
      (fun sum m => sum + pricePerBaseUnit (getMaterialDerivedValues m) * 1000)
      rawMaterials 0
    / lit (Z.of_nat (length rawMaterials)).
Proof.
  intros Hne Hall. cbv zeta.
  rewrite (filter_enriched_all
             (fun item => truthyField (field (em_derived item))))
    by (intros m Hin; exact (proj1 (Hall m Hin))).
  rewrite length_map, length_enriched.
  rewrite fold_prices by (intros m Hin; exact (proj2 (Hall m Hin))).
  destruct rawMaterials as [|m rest]; [contradiction|reflexivity].
Qed.

(** The average over a list with one priced material is its price. *)
Lemma average_single
    (field : MaterialDerivedValues float -> option float)
    rawMaterials rawMaterials' material :
  field (getMaterialDerivedValues material)
  = Some (pricePerBaseUnit (getMaterialDerivedValues material) * 1000) ->
  truthy (pricePerBaseUnit (getMaterialDerivedValues material) * 1000)
  = true ->
  (forall m, In m (rawMaterials ++ rawMaterials') ->
     truthyField (field (getMaterialDerivedValues m)) = false) ->
  (let prices :=
     map (fun item => default 0 (field (em_derived item)))
       (List.filter (fun item => truthyField (field (em_derived item)))
          (enrichedMaterials
             (rawMaterials ++ material :: rawMaterials'))) in
   if (length prices =? 0)%nat then 0
   else fold_left (fun sum value => sum + value) prices 0
        / lit (Z.of_nat (length prices)))
  = pricePerBaseUnit (getMaterialDerivedValues material) * 1000.
Proof.
  intros Hfield Hprice Hrest. cbv zeta.
  assert (Hone : List.filter
                   (fun item => truthyField (field (em_derived item)))
                   (enrichedMaterials
                      (rawMaterials ++ material :: rawMaterials'))
                 = [ {| em_material := material;
                        em_derived := getMaterialDerivedValues material |} ]).
  { unfold enrichedMaterials. rewrite map_app, List.filter_app.
    fold (enrichedMaterials rawMaterials).
    rewrite (filter_enriched_none _ rawMaterials)
      by (intros m Hin; apply Hrest, in_or_app; left; exact Hin).
    cbn [map List.filter em_derived app].
    fold (enrichedMaterials rawMaterials').
    rewrite (filter_enriched_none _ rawMaterials')
      by (intros m Hin; apply Hrest, in_or_app; right; exact Hin).
    rewrite Hfield. cbn [truthyField]. rewrite Hprice. reflexivity. }
  rewrite Hone. cbn [map length Nat.eqb fold_left em_derived].
  rewrite Hfield. cbn [default from_option id].
  rewrite (add_zero_l_truthy _ Hprice).
  apply B64Division.div_one.
Qed.

(** X17: the average price per kilogram of [materialStats] is taken over the
    mass materials with a price only: a material of another unit system, or
    one with purchase quantity ≤ 0, does not change it, and without mass
    materials it is 0 (no division takes place).  Over materials that all
    have a price per kilogram it is the sum of these prices, from left to
    right and starting at 0, divided by their number; with one such material
    among materials that do not count it is exactly that material's price
    per kilogram.  The same holds for the average price per liter and volume
    materials. *)
Theorem average_price_ignores_other_materials rawMaterials rawMaterials'
    material :
  (getUnitSystem (purchaseUnit material) <> Mass
   \/ (purchaseQuantity material <=? 0) = true ->
   averagePricePerKg
     (materialStats
        (enrichedMaterials (rawMaterials ++ material :: rawMaterials')))
   = averagePricePerKg
       (materialStats (enrichedMaterials (rawMaterials ++ rawMaterials'))))
  /\ (getUnitSystem (purchaseUnit material) <> Volume
      \/ (purchaseQuantity material <=? 0) = true ->
      averagePricePerLiter
        (materialStats
           (enrichedMaterials (rawMaterials ++ material :: rawMaterials')))
      = averagePricePerLiter
          (materialStats (enrichedMaterials (rawMaterials ++ rawMaterials'))))
  /\ ((forall m, In m rawMaterials ->
         getUnitSystem (purchaseUnit m) <> Mass) ->
      averagePricePerKg (materialStats (enrichedMaterials rawMaterials)) = 0)
  /\ ((forall m, In m rawMaterials ->
         getUnitSystem (purchaseUnit m) <> Volume) ->
      averagePricePerLiter (materialStats (enrichedMaterials rawMaterials))
      = 0)
  /\ (rawMaterials <> [] ->
      (forall m, In m rawMaterials ->
         truthyField (pricePerKilogram (getMaterialDerivedValues m)) = true) ->
      averagePricePerKg (materialStats (enrichedMaterials rawMaterials))
      = fold_left
          (fun sum m =>
             sum + pricePerBaseUnit (getMaterialDerivedValues m) * 1000)
          rawMaterials 0
        / lit (Z.of_nat (length rawMaterials)))
  /\ (rawMaterials <> [] ->
      (forall m, In m rawMaterials ->
         truthyField (pricePerLiter (getMaterialDerivedValues m)) = true) ->
      averagePricePerLiter (materialStats (enrichedMaterials rawMaterials))
      = fold_left
          (fun sum m =>
             sum + pricePerBaseUnit (getMaterialDerivedValues m) * 1000)
          rawMaterials 0
        / lit (Z.of_nat (length rawMaterials)))
  /\ (getUnitSystem (purchaseUnit material) = Mass ->
      truthy (pricePerBaseUnit (getMaterialDerivedValues material) * 1000)
      = true ->
      (forall m, In m (rawMaterials ++ rawMaterials') ->
         getUnitSystem (purchaseUnit m) <> Mass
         \/ (purchaseQuantity m <=? 0) = true) ->
      averagePricePerKg
        (materialStats
           (enrichedMaterials (rawMaterials ++ material :: rawMaterials')))
      = pricePerBaseUnit (getMaterialDerivedValues material) * 1000)
  /\ (getUnitSystem (purchaseUnit material) = Volume ->
      truthy (pricePerBaseUnit (getMaterialDerivedValues material) * 1000)
      = true ->
      (forall m, In m (rawMaterials ++ rawMaterials') ->
         getUnitSystem (purchaseUnit m) <> Volume
         \/ (purchaseQuantity m <=? 0) = true) ->
      averagePricePerLiter
        (materialStats
           (enrichedMaterials (rawMaterials ++ material :: rawMaterials')))
      = pricePerBaseUnit (getMaterialDerivedValues material) * 1000).
Proof.
  repeat apply conj.
  - intros Hcase. unfold materialStats. cbn [averagePricePerKg].
    rewrite (filter_enriched_skip _ rawMaterials rawMaterials' material
               (pricePerKilogram_falsy material Hcase)).
    reflexivity.
  - intros Hcase. unfold materialStats. cbn [averagePricePerLiter].
    rewrite (filter_enriched_skip _ rawMaterials rawMaterials' material
               (pricePerLiter_falsy material Hcase)).
    reflexivity.
  - intros Hall. unfold materialStats. cbn [averagePricePerKg].
    rewrite (filter_enriched_none
               (fun item => truthyField (pricePerKilogram (em_derived item))))
      by (intros m Hin; apply pricePerKilogram_falsy; left;
          exact (Hall m Hin)).
    reflexivity.
  - intros Hall. unfold materialStats. cbn [averagePricePerLiter].
    rewrite (filter_enriched_none
               (fun item => truthyField (pricePerLiter (em_derived item))))
      by (intros m Hin; apply pricePerLiter_falsy; left; exact (Hall m Hin)).
    reflexivity.
  - intros Hne Hall.
    apply (average_all_priced pricePerKilogram rawMaterials Hne).
    intros m Hin. split; [exact (Hall m Hin)|].
    apply truthy_pricePerKilogram. exact (Hall m Hin).
  - intros Hne Hall.
    apply (average_all_priced pricePerLiter rawMaterials Hne).
    intros m Hin. split; [exact (Hall m Hin)|].
    apply truthy_pricePerLiter. exact (Hall m Hin).
  - intros Hsys Hprice Hrest.
    apply (average_single pricePerKilogram); [|exact Hprice|].
    + unfold getMaterialDerivedValues.
      cbn [pricePerKilogram pricePerBaseUnit].
      destruct (decide _) as [_|Hn]; [reflexivity|contradiction].
    + intros m Hin. apply pricePerKilogram_falsy. exact (Hrest m Hin).
  - intros Hsys Hprice Hrest.
    apply (average_single pricePerLiter); [|exact Hprice|].
    + unfold getMaterialDerivedValues.
      cbn [pricePerLiter pricePerBaseUnit].
      destruct (decide _) as [_|Hn]; [reflexivity|contradiction].
    + intros m Hin. apply pricePerLiter_falsy. exact (Hrest m Hin).
Qed.

Lemma average_price_ignores_other_materials_witness :
  averagePricePerKg
    (materialStats
       (enrichedMaterials [Inputs.emptyStock; Scenario.soapBase]))
  = 1000.
Proof.
  refine (proj1 (proj2 (proj2 (proj2 (proj2 (proj2 (proj2
            (average_price_ignores_other_materials
               [Inputs.emptyStock] [] Scenario.soapBase)))))))
            eq_refl eq_refl _).
  intros m [<-|[]]. right. reflexivity.
Defined.

End StatsExtras.

(** X18: adding a row with a fresh id to a form that has rows and removing
    the row with this id again gives back the form; adding it keeps the row
    ids pairwise distinct. *)
Theorem add_then_remove_line (freshId : string) (prev : ProductFormState) :
  form_materials prev <> [] ->
  ~ In freshId (map row_id (form_materials prev)) ->
  removeMaterialLine freshId (addMaterialLine freshId prev) = prev
  /\ (List.NoDup (map row_id (form_materials prev)) ->
      List.NoDup (map row_id
                    (form_materials (addMaterialLine freshId prev)))).
Proof.
  intros Hne Hfresh. split.
  - unfold removeMaterialLine, addMaterialLine.
    cbn [form_materials withFormMaterials].
    assert (Hlen : (1 <? length (form_materials prev
                                 ++ [createMaterialRow freshId]))%nat = true).
    { apply Nat.ltb_lt. rewrite length_app. cbn [length].
      destruct (form_materials prev); [contradiction|cbn; lia]. }
    rewrite Hlen, List.filter_app. cbn [List.filter createMaterialRow row_id].
    rewrite bool_decide_eq_true_2 by reflexivity. cbn [negb].
    rewrite app_nil_r.
    assert (Hall : List.filter
                     (fun item => negb (bool_decide (row_id item = freshId)))
                     (form_materials prev) = form_materials prev).
    { apply forallb_filter_id. apply forallb_forall. intros item Hin.
      apply negb_true_iff. apply bool_decide_eq_false_2. intros Hid.
      apply Hfresh. rewrite <- Hid. apply in_map. exact Hin. }
    rewrite Hall. destruct prev; reflexivity.
  - intros Hnd. unfold addMaterialLine.
    cbn [form_materials withFormMaterials].
    rewrite map_app. cbn [map createMaterialRow row_id].
    apply (Permutation_NoDup
             (l := freshId :: map row_id (form_materials prev))).
    { apply Permutation_cons_append. }
    apply List.NoDup_cons; assumption.
Qed.

Lemma add_then_remove_line_witness :
  removeMaterialLine "r9"
    (addMaterialLine "r9"
       (FormInputs.formOf [FormInputs.row1; FormInputs.row2]))
  = FormInputs.formOf [FormInputs.row1; FormInputs.row2].
Proof.
  apply (add_then_remove_line "r9"
           (FormInputs.formOf [FormInputs.row1; FormInputs.row2])).
  - discriminate.
  - intros [Heq|[Heq|[]]]; discriminate.
Defined.

(** ** A cost that is not a number *)

Section NaNExtras.
Local Open Scope float_scope.

Lemma isNaN_add_l (x y : float) :
  B64.isNaN x = true -> B64.isNaN (x + y) = true.
Proof.
  unfold B64.isNaN. rewrite add_spec.
  destruct (Prim2SF x); try discriminate. intros _. reflexivity.
Qed.

Lemma isNaN_add_r (x y : float) :
  B64.isNaN y = true -> B64.isNaN (x + y) = true.
Proof.
  unfold B64.isNaN. rewrite add_spec.
  destruct (Prim2SF y); try discriminate. intros _.
  destruct (Prim2SF x); reflexivity.
Qed.

Lemma isNaN_div_l (x y : float) :
  B64.isNaN x = true -> B64.isNaN (x / y) = true.
Proof.
  unfold B64.isNaN. rewrite div_spec.
  destruct (Prim2SF x); try discriminate. intros _. reflexivity.
Qed.

Lemma isNaN_mul_l (x y : float) :
  B64.isNaN x = true -> B64.isNaN (x * y) = true.
Proof.
  unfold B64.isNaN. rewrite mul_spec.
  destruct (Prim2SF x); try discriminate. intros _. reflexivity.
Qed.

Lemma isNaN_not_positive (x : float) : B64.isNaN x = true -> (0 <? x) = false.
Proof.
  unfold B64.isNaN. rewrite ltb_spec.
  destruct (Prim2SF x); try discriminate. intros _. reflexivity.
Qed.

Lemma fold_costs_NaN (lines : list (BreakdownLine float)) (acc : float) :
  B64.isNaN acc = true \/
  (exists line, In line lines /\ B64.isNaN (line_cost line) = true) ->
  B64.isNaN (fold_left (fun sum item => sum + line_cost item) lines acc)
  = true.
Proof.
  revert acc. induction lines as [|line lines IH]; intros acc Hcase.
  - destruct Hcase as [Hacc|(l & [] & _)]. exact Hacc.
  - cbn [fold_left]. apply IH.
    destruct Hcase as [Hacc|(l & [<-|Hin] & Hl)].
    + left. apply isNaN_add_l. exact Hacc.
    + left. apply isNaN_add_r. exact Hl.
    + right. exists l. split; assumption.
Qed.

(** X19: when the cost of one breakdown line is NaN, totalMaterialCost,
    totalCost, unitCost and recommendedPrice are NaN too, and a product
    without override price displays a margin of 0. *)
Theorem nan_cost_propagates (product : ProductRecord float)
    (rawMaterials : list (RawMaterialRecord float))
    (line : BreakdownLine float) :
  let r := calculateProductCosts product rawMaterials in
  In line (breakdown r) ->
  B64.isNaN (line_cost line) = true ->
  B64.isNaN (totalMaterialCost r) = true
  /\ B64.isNaN (totalCost r) = true
  /\ B64.isNaN (unitCost r) = true
  /\ B64.isNaN (recommendedPrice r) = true
  /\ (overrideSalePrice product = None ->
      margin (productWithDerived rawMaterials product) = 0).
Proof.
  intros r Hin Hnan.
  assert (Ht : B64.isNaN (totalMaterialCost r) = true).
  { apply fold_costs_NaN. right. exists line. split; assumption. }
  assert (Hc : B64.isNaN (totalCost r) = true).
  { apply isNaN_add_l. apply isNaN_add_l. exact Ht. }
  assert (Hu : B64.isNaN (unitCost r) = true).
  { subst r. unfold calculateProductCosts in *. cbn [unitCost totalCost] in *.
    destruct (batchSize product >? lit 0)%num;
      [apply isNaN_div_l|]; exact Hc. }
  assert (Hp : B64.isNaN (recommendedPrice r) = true).
  { subst r. unfold calculateProductCosts in *.
    cbn [recommendedPrice unitCost] in *.
    destruct (targetMargin product >? lit 0)%num;
      [apply isNaN_mul_l|]; exact Hu. }
  repeat split; try assumption.
  intros Hov. unfold productWithDerived. cbn [margin]. rewrite Hov.
  cbn [default]. fold r.
  change (gtb (recommendedPrice r) (lit 0)) with (0 <? recommendedPrice r).
  rewrite (isNaN_not_positive _ Hp). reflexivity.
Qed.

Lemma nan_cost_propagates_witness :
  B64.isNaN
    (totalCost (calculateProductCosts FormInputs.hugeOrder
                  [Inputs.emptyStock])) = true
  /\ margin (productWithDerived [Inputs.emptyStock] FormInputs.hugeOrder)
     = 0.
Proof.
  pose proof (nan_cost_propagates FormInputs.hugeOrder [Inputs.emptyStock]
                (breakdownLine (materialDictionary [Inputs.emptyStock])
                   Inputs.hugeRequirement)
                (or_introl eq_refl) eq_refl) as (_ & Hc & _ & _ & Hm).
  split; [exact Hc|exact (Hm eq_refl)].
Defined.

End NaNExtras.
